(** * RAG_app: the query generator, query validator, conversation memory
      and result formatting of the natural-language-to-SQL pipeline.

    The development embeds

    - [rag/sql_generator.py]: [SQLGenerator.generate_sql],
      [SQLGenerator.create_fallback_query], [SQLGenerator.validate_sql];
    - [rag/memory_manager.py]: [ConversationMemory];
    - [rag/response_generator.py]: the result-formatting step of
      [ResponseGenerator.generate_response];
    - [rag/tempCodeRunnerFile.py], which holds the [SchemaAnalyzer] that
      the application imports as [rag.schema_analyzer];
    - [main.py]: [SchoolDatabaseApp.process_question], the caller of all of
      the above;
    - [security/auth.py]: [SecurityManager.sanitize_query];

    and proves the properties the specification states about them.

    The handlers of [generate_sql] and of [process_question] evaluate
    [str(e)], and [generate_response] renders the results before its
    [try]; the module [exact] has these functions with the failures of
    those calls written out, and the last part of the development is
    about what then leaves each function.

    Python text ([str]) is a sequence of Unicode code points.  The ASCII
    part of the character tables is written out; the part of the Unicode
    character database beyond ASCII is a parameter ([UnicodeDB]), so every
    theorem holds for every version of that database. *)

From Stdlib Require Import ZArith NArith List String Ascii Lia.
From Stdlib Require Import Floats DecimalString.
From stdpp Require Import base option list gmap strings.

Local Open Scope N_scope.

(** ** Python text *)

(** A [str] is a list of code points. *)
Abbreviation char := N (only parsing).
Abbreviation str := (list N) (only parsing).

(** A literal of the source, written as a Rocq string of ASCII characters. *)
Definition lit (s : string) : str :=
  map N_of_ascii (list_ascii_of_string s).

(** The Unicode character database beyond ASCII, as CPython consults it:
    [Py_UNICODE_ISSPACE], the full upper-case mapping of a code point, and
    the full lower-case mapping, which for U+03A3 depends on the text
    before and after it (the final-sigma rule). *)
Class UnicodeDB := {
  uni_isspace : char -> bool;
  uni_toupper : char -> str;
  uni_tolower : str -> str -> char -> str
}.

(** A database that leaves every code point beyond ASCII alone; it is
    used to evaluate the model on ASCII inputs. *)
Definition ascii_only : UnicodeDB := {|
  uni_isspace := fun _ => false;
  uni_toupper := fun c => [c];
  uni_tolower := fun _ _ c => [c]
|}.

Definition is_ascii (c : char) : bool := c <? 128.

(** [_Py_ascii_whitespace]: TAB, LF, VT, FF, CR, FS, GS, RS, US, space. *)
Definition ascii_isspace (c : char) : bool :=
  ((9 <=? c) && (c <=? 13)) || ((28 <=? c) && (c <=? 32)).

Definition ascii_isupper (c : char) : bool := (65 <=? c) && (c <=? 90).
Definition ascii_islower (c : char) : bool := (97 <=? c) && (c <=? 122).
Definition ascii_isalpha (c : char) : bool := ascii_isupper c || ascii_islower c.

(** ASCII case folding of one code point, other code points unchanged. *)
Definition ascii_toupper (c : char) : char :=
  if ascii_islower c then c - 32 else c.
Definition ascii_tolower (c : char) : char :=
  if ascii_isupper c then c + 32 else c.

Section Text.
Context {U : UnicodeDB}.

Definition py_isspace (c : char) : bool :=
  if is_ascii c then ascii_isspace c else uni_isspace c.

Definition py_toupper (c : char) : str :=
  if is_ascii c then [ascii_toupper c] else uni_toupper c.

Definition py_tolower (before after : str) (c : char) : str :=
  if is_ascii c then [ascii_tolower c] else uni_tolower before after c.

(** [s.upper()]: code point by code point. *)
Definition upper (s : str) : str := flat_map py_toupper s.

(** [s.lower()]: code point by code point, each seeing its context. *)
Fixpoint lower_from (before s : str) : str :=
  match s with
  | [] => []
  | c :: rest => py_tolower before rest c ++ lower_from (before ++ [c]) rest
  end.
Definition lower (s : str) : str := lower_from [] s.

(** [s.lstrip()], [s.rstrip()] and [s.strip()] with no argument. *)
Fixpoint lstrip (s : str) : str :=
  match s with
  | [] => []
  | c :: rest => if py_isspace c then lstrip rest else s
  end.
Definition rstrip (s : str) : str := rev (lstrip (rev s)).
Definition strip (s : str) : str := rstrip (lstrip s).
End Text.

(** [s.startswith(p)]. *)
Fixpoint startswith (s p : str) {struct p} : bool :=
  match p, s with
  | [], _ => true
  | _ :: _, [] => false
  | x :: p', y :: s' => (x =? y) && startswith s' p'
  end.

(** [needle in hay] on text: is [needle] a contiguous part of [hay]? *)
Fixpoint contains (needle hay : str) : bool :=
  startswith hay needle ||
  match hay with
  | [] => false
  | _ :: rest => contains needle rest
  end.

(** [s.split(sep)] for a non-empty [sep]: the pieces between the
    non-overlapping occurrences of [sep], found from the left.  [skip]
    counts the code points of a separator still to be passed over and
    [cur] is the current piece, reversed. *)
Fixpoint split_aux (sep : str) (skip : nat) (cur s : str) : list str :=
  match s with
  | [] => [rev cur]
  | c :: rest =>
      match skip with
      | S k => split_aux sep k cur rest
      | O =>
          if startswith s sep
          then rev cur :: split_aux sep (length sep - 1) [] rest
          else split_aux sep 0 (c :: cur) rest
      end
  end.
Definition split (sep s : str) : list str := split_aux sep 0 [] s.

(** [str(n)] for a natural number. *)
Definition str_of_nat (n : nat) : str :=
  lit (NilZero.string_of_uint (Nat.to_uint n)).

(** ** Exceptions *)

(** What the two handlers of [generate_sql] tell apart: [except Exception]
    catches the classes derived from [Exception]; a bare [except:] catches
    every class, also [KeyboardInterrupt] and [SystemExit]. *)
Inductive exn_class := cls_Exception | cls_BaseException_only.

(** An exception: its class and, where [str(e)] returns, the text that it
    returns.  The functions of the modules below take [str(e)] to return;
    [exact], further down, has the same functions with a [str(e)] that may
    itself raise. *)
Record exn := Exn { exn_cls : exn_class; exn_str : str }.

Inductive outcome (A : Type) :=
| Ok (a : A)
| Raise (e : exn).
Arguments Ok {A} a.
Arguments Raise {A} e.

#[global] Instance outcome_ret : MRet outcome := fun A a => Ok a.
#[global] Instance outcome_bind : MBind outcome := fun A B f m =>
  match m with
  | Ok a => f a
  | Raise e => Raise e
  end.

(** [try: body except: handler] *)
Definition try_except {A} (body : outcome A) (handler : outcome A) : outcome A :=
  match body with
  | Ok a => Ok a
  | Raise _ => handler
  end.

(** [try: body except Exception as e: handler(e)] *)
Definition try_except_Exception {A} (body : outcome A)
    (handler : exn -> outcome A) : outcome A :=
  match body with
  | Ok a => Ok a
  | Raise e =>
      match exn_cls e with
      | cls_Exception => handler e
      | cls_BaseException_only => Raise e
      end
  end.

Definition TypeError : exn := Exn cls_Exception (lit "TypeError").
Definition AttributeError : exn := Exn cls_Exception (lit "AttributeError").
Definition IndexError : exn :=
  Exn cls_Exception (lit "list index out of range").

(** [l[i]] for a non-negative literal index. *)
Definition getitem {A} (l : list A) (i : nat) : outcome A :=
  match l !! i with
  | Some a => Ok a
  | None => Raise IndexError
  end.

(** The line feed, and [len(l)], [l[start:]] for a list and an integer
    [start] as [PySlice_AdjustIndices] reads it: a negative [start] counts
    from the end, and the result is clipped to the list. *)
Definition nl : str := [10].

Definition slice_from {A} (l : list A) (start : Z) : list A :=
  let len := Z.of_nat (length l) in
  let start :=
    if (start <? 0)%Z then Z.max (start + len) 0 else Z.min start len in
  drop (Z.to_nat start) l.

(** ** rag/sql_generator.py *)

Module sql_generator.

(** [class SQLQuery(BaseModel)]: [confidence] is a Python float, that is,
    an IEEE 754 binary64 number. *)
Record SQLQuery := {
  query : str;
  explanation : str;
  confidence : float
}.

(** The float literals of the source. *)
#[warnings="-inexact-float"]
Definition f0_7 : float := 0.7%float.
#[warnings="-inexact-float"]
Definition f0_8 : float := 0.8%float.
Definition f0_0 : float := 0.0%float.
Definition f1_0 : float := 1.0%float.

(** What [json.loads] returns: [None], [bool], [int], [float], [str],
    [list], or a [dict] given by its items. *)
#[warnings="-register-all"]
Inductive json :=
| JNull
| JBool (b : bool)
| JInt (z : Z)
| JFloat (f : float)
| JStr (s : str)
| JList (l : list json)
| JDict (items : list (str * json)).

(** [d.get(key, default)] on the items of a dict. *)
Fixpoint dict_get (items : list (str * json)) (key : str) (default : json) : json :=
  match items with
  | [] => default
  | (k, v) :: rest =>
      if bool_decide (k = key) then v else dict_get rest key default
  end.

(** [parsed.get(key, default)]: only a dict has the method. *)
Definition get_method (parsed : json) (key : str) (default : json) : outcome json :=
  match parsed with
  | JDict items => Ok (dict_get items key default)
  | _ => Raise AttributeError
  end.

(** The libraries behind [generate_sql] that are not part of the
    repository: [json.loads]; [float] applied to an [int] (which overflows
    on a large one) and to a [str] (which parses it); and what pydantic
    does with a value that is not a [str] in a [str] field (version 1
    converts some, version 2 refuses). *)
Class Libraries := {
  json_loads : str -> outcome json;
  float_of_int : Z -> outcome float;
  float_of_str : str -> outcome float;
  pydantic_str_of_other : json -> outcome str
}.

Section SQLGenerator.
Context {U : UnicodeDB} {L : Libraries}.

(** [float(x)] *)
Definition py_float (x : json) : outcome float :=
  match x with
  | JFloat f => Ok f
  | JBool b => Ok (if b then f1_0 else f0_0)
  | JInt z => float_of_int z
  | JStr s => float_of_str s
  | JNull | JList _ | JDict _ => Raise TypeError
  end.

(** pydantic's validation of a [str] field. *)
Definition str_field (x : json) : outcome str :=
  match x with
  | JStr s => Ok s
  | _ => pydantic_str_of_other x
  end.

(** [SQLQuery(query=q, explanation=e, confidence=c)] on values of
    any type for the two text fields. *)
Definition SQLQuery_new (q e : json) (c : float) : outcome SQLQuery :=
  q' ← str_field q;
  e' ← str_field e;
  Ok {| query := q'; explanation := e'; confidence := c |}.

(** What [SQLGenerator] holds: the schema analyzer, whose two methods
    take no argument, and the model chain. *)
Record SQLGenerator := {
  get_schema_description : outcome str;
  get_table_info_json : outcome str;
  chain_run : str -> str -> str -> outcome str
}.

Definition create_fallback_query (question : str) (error : str) : SQLQuery :=
  let question_lower := lower question in
  if contains (lit "class") question_lower && contains (lit "all") question_lower then
    {| query := lit "SELECT class_id, class_name FROM classes LIMIT 100";
       explanation := lit "Showing all classes from the database";
       confidence := f0_7 |}
  else if contains (lit "student") question_lower && contains (lit "count") question_lower then
    {| query := lit "SELECT COUNT(*) as total_students FROM students";
       explanation := lit "Counting total number of students";
       confidence := f0_7 |}
  else if contains (lit "student") question_lower && contains (lit "all") question_lower then
    {| query := lit "SELECT roll_no, first_name, last_name, age FROM students LIMIT 100";
       explanation := lit "Showing all students in the database";
       confidence := f0_7 |}
  else
    {| query := lit "SELECT 'Error: Could not generate query' as error_message";
       explanation := lit "Failed to generate query for: " ++ question
                      ++ lit ". Error: " ++ error;
       confidence := f0_0 |}.

(** The text between the fences the model may put around its answer. *)
Definition clean_response (result : str) : outcome str :=
  let cleaned_result := strip result in
  if contains (lit "```json") cleaned_result then
    after ← getitem (split (lit "```json") cleaned_result) 1;
    getitem (split (lit "```") after) 0
  else if contains (lit "```") cleaned_result then
    after ← getitem (split (lit "```") cleaned_result) 1;
    getitem (split (lit "```") after) 0
  else Ok cleaned_result.

(** The body of the inner [try] of [generate_sql]. *)
Definition parse_response (result : str) : outcome SQLQuery :=
  cleaned_result ← clean_response result;
  parsed ← json_loads cleaned_result;
  q ← get_method parsed (lit "query") (JStr (lit "SELECT * FROM classes LIMIT 10"));
  e ← get_method parsed (lit "explanation") (JStr (lit "Generated SQL query"));
  c ← get_method parsed (lit "confidence") (JFloat f0_8);
  c' ← py_float c;
  SQLQuery_new q e c'.

Definition generate_sql (self : SQLGenerator) (question : str) : outcome SQLQuery :=
  schema_description ← get_schema_description self;
  table_info ← get_table_info_json self;
  try_except_Exception
    (result ← chain_run self schema_description table_info question;
     try_except
       (parse_response result)
       (Ok (create_fallback_query question [])))
    (fun e => Ok (create_fallback_query question (exn_str e))).

Definition dangerous_keywords : list str :=
  [lit "DROP"; lit "DELETE"; lit "UPDATE"; lit "INSERT"; lit "ALTER";
   lit "CREATE"; lit "TRUNCATE"].

(** [re.sub(r'--.*$', '', query, flags=re.MULTILINE)]: a match starts at
    the first [--] not yet consumed, [.*] runs to the next line feed
    (which [.] does not match) or to the end of the text, where [$]
    holds.  [in_match] says that the scan is inside a match. *)
Fixpoint sub_line_comments (in_match : bool) (s : str) : str :=
  match s with
  | [] => []
  | c :: rest =>
      if in_match then
        if c =? 10 then c :: sub_line_comments false rest
        else sub_line_comments true rest
      else if (c =? 45) && startswith rest [45] then sub_line_comments true rest
      else c :: sub_line_comments false rest
  end.

(** The loop over the keywords, which returns at the first one found. *)
Fixpoint keyword_loop (keywords : list str) (clean_query : str) : option bool :=
  match keywords with
  | [] => None
  | keyword :: rest =>
      if contains keyword clean_query then Some false
      else keyword_loop rest clean_query
  end.

Definition validate_sql (query : str) : bool :=
  let clean_query := sub_line_comments false query in
  let clean_query := upper (strip clean_query) in
  match keyword_loop dangerous_keywords clean_query with
  | Some r => r
  | None =>
      if negb (startswith clean_query (lit "SELECT")) then false
      else true
  end.
End SQLGenerator.

End sql_generator.

(** ** rag/memory_manager.py *)

Module memory_manager.
Section ConversationMemory.
(** [Value] is the universe of the Python objects that are not text,
    and [py_str] is [str(x)] on them, which runs the object's own
    [__str__] and so may raise. *)
Context {Value : Type} (py_str : Value -> outcome str).

(** A value of type [Any]. *)
Inductive object :=
| Str (s : str)
| Obj (v : Value).

(** [isinstance(x, str)] *)
Definition isinstance_str (x : object) : bool :=
  match x with
  | Str _ => true
  | Obj _ => false
  end.

(** The dict that [add_exchange] builds; the [result] entry is kept
    with its dynamic type. *)
Record Exchange := {
  timestamp : str;
  question : str;
  sql_query : str;
  result : object;
  explanation : str
}.

Record ConversationMemory := {
  conversations : gmap str (list Exchange);
  current_session : option str
}.

(** [ConversationMemory()] *)
Definition init : ConversationMemory :=
  {| conversations := ∅; current_session := None |}.

(** [uuid4] is the identifier drawn by [str(uuid.uuid4())]. *)
Definition create_session (self : ConversationMemory) (uuid4 : str)
    : ConversationMemory * str :=
  let session_id := uuid4 in
  ({| conversations := <[session_id := []]> (conversations self);
      current_session := Some session_id |},
   session_id).

(** [now] is [datetime.now().isoformat()] at the time of the call.  The
    log of an unknown session is created before the exchange is built,
    so it stays when [str(result)] raises. *)
Definition add_exchange (self : ConversationMemory)
    (session_id question sql_query : str) (result : object)
    (explanation : str) (now : str) : ConversationMemory * outcome unit :=
  let self :=
    match conversations self !! session_id with
    | None =>
        {| conversations := <[session_id := []]> (conversations self);
           current_session := current_session self |}
    | Some _ => self
    end in
  let rendered :=
    if negb (isinstance_str result)
    then match result with
         | Obj v => s ← py_str v; Ok (Str s)
         | Str s => Ok (Str s)
         end
    else Ok result in
  match rendered with
  | Raise e => (self, Raise e)
  | Ok r =>
      let exchange :=
        {| timestamp := now;
           question := question;
           sql_query := sql_query;
           result := r;
           explanation := explanation |} in
      ({| conversations :=
            alter (fun log => log ++ [exchange]) session_id (conversations self);
          current_session := current_session self |},
       Ok tt)
  end.

Definition get_conversation_history (self : ConversationMemory)
    (session_id : str) (limit : Z) : list Exchange :=
  match conversations self !! session_id with
  | None => []
  | Some log => slice_from log (- limit)
  end.

Definition get_context_for_question (self : ConversationMemory)
    (session_id current_question : str) : str :=
  let history := get_conversation_history self session_id 5 in
  match history with
  | [] => []
  | _ :: _ =>
      fold_left
        (fun context exchange =>
           (context ++ (lit "Q: " ++ question exchange ++ nl))
           ++ (lit "A: " ++ explanation exchange ++ nl ++ nl))
        (slice_from history (-3))
        (lit "Previous conversation context:" ++ nl)
  end.

(** The operations of the class, as a caller issues them. *)
Inductive call :=
| CreateSession (uuid4 : str)
| AddExchange (session_id question sql_query : str) (result : object)
    (explanation : str) (now : str)
| GetConversationHistory (session_id : str) (limit : Z)
| GetContextForQuestion (session_id current_question : str).

Definition do_call (self : ConversationMemory) (c : call) : ConversationMemory :=
  match c with
  | CreateSession uuid4 => fst (create_session self uuid4)
  | AddExchange session_id question sql_query result explanation now =>
      fst (add_exchange self session_id question sql_query result explanation now)
  | GetConversationHistory _ _ => self
  | GetContextForQuestion _ _ => self
  end.

Definition run (calls : list call) : ConversationMemory :=
  fold_left do_call calls init.
End ConversationMemory.
End memory_manager.

(** ** rag/response_generator.py *)

Module response_generator.
Section ResponseGenerator.
(** A [pandas.DataFrame] with its column labels and its rows, one list
    of cells per row of the index.  [to_string] is
    [df.to_string(index=False)], [py_str] is [str(x)] on the results
    that are not a DataFrame, and the model is reached through
    [llm_invoke], with [prompt_format] filling the prompt template. *)
Context {cell Value : Type}.

Record DataFrame := {
  columns : list str;
  rows : list (list cell)
}.

Inductive query_results :=
| Frame (df : DataFrame)
| Other (v : Value).

Context (to_string : DataFrame -> str) (py_str : Value -> outcome str).
Context (prompt_format : str -> str -> str -> str -> str).
Context (llm_invoke : str -> outcome str).

(** [len(df)]: the length of the index. *)
Definition len (df : DataFrame) : nat := length (rows df).

(** [df.empty]: some axis has length 0. *)
Definition empty (df : DataFrame) : bool :=
  (length (rows df) =? 0)%nat || (length (columns df) =? 0)%nat.

(** [df.head(n)] *)
Definition head (n : nat) (df : DataFrame) : DataFrame :=
  {| columns := columns df; rows := take n (rows df) |}.

(** The value of [results_text] after the formatting step. *)
Definition results_text (results : query_results) : outcome str :=
  match results with
  | Frame df =>
      if empty df then Ok (lit "No data found.")
      else if (10 <? len df)%nat then
        Ok (lit "Found " ++ str_of_nat (len df)
            ++ lit " records. Here are the first 10:" ++ nl
            ++ to_string (head 10 df))
      else Ok (to_string df)
  | Other v => py_str v
  end.

Definition generate_response (question sql_query : str)
    (results : query_results) (context : str) : outcome str :=
  results_text ← results_text results;
  try_except_Exception
    (llm_invoke (prompt_format question sql_query results_text context))
    (fun e =>
       Ok (lit "I found some results for your question '" ++ question
           ++ lit "'. Here's what I discovered: " ++ results_text)).
End ResponseGenerator.
End response_generator.

(** ** rag/tempCodeRunnerFile.py: [SchemaAnalyzer] *)

Module schema_analyzer.

(** A row of the column catalogue read by [get_schema_info], and a row of
    the foreign keys read by [get_foreign_keys], with the text the driver
    returns in each column; [COLUMN_DEFAULT] is [None] for a column with
    no default. *)
Record column_row := {
  TABLE_NAME : str;
  COLUMN_NAME : str;
  DATA_TYPE : str;
  IS_NULLABLE : str;
  COLUMN_DEFAULT : option str;
  COLUMN_KEY : str;
  EXTRA : str
}.

Record foreign_key_row := {
  FK_TABLE_NAME : str;
  FK_COLUMN_NAME : str;
  CONSTRAINT_NAME : str;
  REFERENCED_TABLE_NAME : str;
  REFERENCED_COLUMN_NAME : str
}.

(** What [analyze_schema] stores: the rows of the two frames, in the
    order of their index. *)
Record SchemaAnalyzer := {
  schema_info : list column_row;
  foreign_keys : list foreign_key_row
}.

(** [series.unique()]: the values in the order of their first
    appearance. *)
Fixpoint unique_aux (seen values : list str) : list str :=
  match values with
  | [] => []
  | v :: rest =>
      if bool_decide (v ∈ seen) then unique_aux seen rest
      else v :: unique_aux (v :: seen) rest
  end.
Definition unique (values : list str) : list str := unique_aux [] values.

(** [frame[frame['TABLE_NAME'] == table]] on the two frames. *)
Definition columns_of (self : SchemaAnalyzer) (table : str) : list column_row :=
  filter (fun col => TABLE_NAME col = table) (schema_info self).
Definition foreign_keys_of (self : SchemaAnalyzer) (table : str)
    : list foreign_key_row :=
  filter (fun fk => FK_TABLE_NAME fk = table) (foreign_keys self).

(** The line that the inner loop adds for a column. *)
Definition column_line (col : column_row) : str :=
  let nullable :=
    if bool_decide (IS_NULLABLE col = lit "YES") then lit "Optional"
    else lit "Required" in
  let key_info :=
    match COLUMN_KEY col with
    | [] => []
    | _ :: _ => lit " (" ++ COLUMN_KEY col ++ lit ")"
    end in
  lit "  - " ++ COLUMN_NAME col ++ lit ": " ++ DATA_TYPE col ++ key_info
  ++ lit " - " ++ nullable ++ nl.

(** The line that the inner loop adds for a foreign key. *)
Definition relationship_line (fk : foreign_key_row) : str :=
  lit "  - " ++ FK_COLUMN_NAME fk ++ lit " references "
  ++ REFERENCED_TABLE_NAME fk ++ lit "." ++ REFERENCED_COLUMN_NAME fk ++ nl.

Definition get_schema_description (self : SchemaAnalyzer) : str :=
  let tables := unique (map TABLE_NAME (schema_info self)) in
  fold_left
    (fun description table =>
       let table_columns := columns_of self table in
       let description := description ++ (lit "Table: " ++ table ++ nl) in
       let description := description ++ (lit "Columns:" ++ nl) in
       let description :=
         fold_left (fun description col => description ++ column_line col)
           table_columns description in
       let table_fks := foreign_keys_of self table in
       let description :=
         match table_fks with
         | [] => description
         | _ :: _ =>
             fold_left (fun description fk => description ++ relationship_line fk)
               table_fks (description ++ (lit "Relationships:" ++ nl))
         end in
       description ++ nl)
    tables
    (lit "School Database Schema Description:" ++ nl ++ nl).

(** The values of the dict that [get_table_info_for_llm] returns. *)
Record column_info := {
  name : str;
  type : str;
  nullable : bool;
  key : str;
  default : option str
}.

Record relationship_info := {
  column : str;
  references_table : str;
  references_column : str
}.

Record table_info := {
  columns : list column_info;
  relationships : list relationship_info
}.

(** The dict is given by its items, in the order of their insertion. *)
Definition get_table_info_for_llm (self : SchemaAnalyzer)
    : list (str * table_info) :=
  map
    (fun table =>
       (table,
        {| columns :=
             map (fun col =>
                    {| name := COLUMN_NAME col;
                       type := DATA_TYPE col;
                       nullable := bool_decide (IS_NULLABLE col = lit "YES");
                       key := COLUMN_KEY col;
                       default := COLUMN_DEFAULT col |})
               (columns_of self table);
           relationships :=
             map (fun fk =>
                    {| column := FK_COLUMN_NAME fk;
                       references_table := REFERENCED_TABLE_NAME fk;
                       references_column := REFERENCED_COLUMN_NAME fk |})
               (foreign_keys_of self table) |}))
    (unique (map TABLE_NAME (schema_info self))).
End schema_analyzer.

(** ** security/auth.py: [SecurityManager.sanitize_query] *)

Module auth.
(** [s.replace(old, new)] for a non-empty [old]: the non-overlapping
    occurrences of [old], found from the left, are replaced.  [skip]
    counts the code points of an occurrence still to be passed over. *)
Fixpoint replace_aux (old new : str) (skip : nat) (s : str) : str :=
  match s with
  | [] => []
  | c :: rest =>
      match skip with
      | S k => replace_aux old new k rest
      | O =>
          if startswith s old
          then new ++ replace_aux old new (length old - 1) rest
          else c :: replace_aux old new 0 rest
      end
  end.
Definition replace (old new s : str) : str := replace_aux old new 0 s.

Definition dangerous_patterns : list str :=
  [lit ";"; lit "--"; lit "/*"; lit "*/"; lit "xp_"; lit "sp_"].

Definition sanitize_query {U : UnicodeDB} (query : str) : str :=
  strip (fold_left (fun query pattern => replace pattern [] query)
           dangerous_patterns query).
End auth.

(** ** main.py: [SchoolDatabaseApp.process_question] *)

Module main.
Section ProcessQuestion.
(** The components that [initialize_components] stores in the session
    state, and the libraries behind them: [cell] and [Value] are the cells
    of a DataFrame and the results that are not a DataFrame, [datetime] is
    a reading of the clock, [to_string] and [df_str] are
    [df.to_string(index=False)] and [str(df)], [py_str] is [str(x)] on the
    other results, and [execute_query] is
    [DatabaseManager.execute_query] on the database as it stands. *)
Context {U : UnicodeDB} {L : sql_generator.Libraries}.
Context {cell Value datetime : Type}.
Abbreviation query_results := (response_generator.query_results (cell := cell) (Value := Value)).
Context (to_string df_str : response_generator.DataFrame (cell := cell) -> str).
Context (py_str : Value -> outcome str).
Context (prompt_format : str -> str -> str -> str -> str).
Context (llm_invoke : str -> outcome str).
Context (execute_query : str -> outcome query_results).

(** [str(results)], as [add_exchange] calls it. *)
Definition str_results (results : query_results) : outcome str :=
  match results with
  | response_generator.Frame df => Ok (df_str df)
  | response_generator.Other v => py_str v
  end.

(** An entry of [st.session_state.conversation_history]; [results] is
    [None] in the entry of a failure. *)
Record history_entry := {
  entry_timestamp : datetime;
  entry_question : str;
  entry_response : str;
  entry_sql_query : str;
  entry_results : option query_results;
  entry_confidence : float;
  entry_error : bool
}.

(** The session state of an initialised application.  The attribute
    [conversation_history] may be missing, which the code tests with
    [hasattr]; [executed] is the list of the statements sent to the
    database so far. *)
Record session_state := {
  sql_generator : sql_generator.SQLGenerator;
  memory : memory_manager.ConversationMemory (Value := query_results);
  session_id : str;
  conversation_history : option (list history_entry);
  executed : list str
}.

(** The dict that [process_question] returns. *)
Record reply := {
  response : str;
  error : bool
}.

Definition set_executed (st : session_state) (executed : list str) : session_state :=
  {| sql_generator := sql_generator st; memory := memory st;
     session_id := session_id st;
     conversation_history := conversation_history st;
     executed := executed |}.

Definition set_memory (st : session_state)
    (memory : memory_manager.ConversationMemory) : session_state :=
  {| sql_generator := sql_generator st; memory := memory;
     session_id := session_id st;
     conversation_history := conversation_history st;
     executed := executed st |}.

Definition set_conversation_history (st : session_state)
    (h : list history_entry) : session_state :=
  {| sql_generator := sql_generator st; memory := memory st;
     session_id := session_id st;
     conversation_history := Some h;
     executed := executed st |}.

(** The body of the [try]: the state it leaves and how it ends.
    [now_iso] is the clock as [add_exchange] reads it and [now] as the
    history entry records it. *)
Definition process_question_try (st : session_state) (question : str)
    (now_iso : str) (now : datetime) : session_state * outcome reply :=
  match sql_generator.generate_sql (sql_generator st) question with
  | Raise e => (st, Raise e)
  | Ok sql_result =>
      if negb (sql_generator.validate_sql (sql_generator.query sql_result)) then
        (st,
         Ok {| response := lit "I apologize, but I couldn't generate a safe query for your question. Could you please rephrase it?";
               error := true |})
      else
        let st := set_executed st (executed st ++ [sql_generator.query sql_result]) in
        match execute_query (sql_generator.query sql_result) with
        | Raise e => (st, Raise e)
        | Ok query_results =>
            let context :=
              memory_manager.get_context_for_question (memory st) (session_id st)
                question in
            match response_generator.generate_response to_string py_str
                    prompt_format llm_invoke question
                    (sql_generator.query sql_result) query_results context with
            | Raise e => (st, Raise e)
            | Ok response =>
                let added :=
                  memory_manager.add_exchange str_results (memory st) (session_id st)
                    question (sql_generator.query sql_result)
                    (memory_manager.Obj query_results) response now_iso in
                let st := set_memory st added.1 in
                match added.2 with
                | Raise e => (st, Raise e)
                | Ok _ =>
                    match conversation_history st with
                    | None => (st, Raise AttributeError)
                    | Some h =>
                        (set_conversation_history st
                           (h ++ [{| entry_timestamp := now;
                                     entry_question := question;
                                     entry_response := response;
                                     entry_sql_query := sql_generator.query sql_result;
                                     entry_results := Some query_results;
                                     entry_confidence := sql_generator.confidence sql_result;
                                     entry_error := false |}]),
                         Ok {| response := response; error := false |})
                    end
                end
            end
        end
  end.

Definition process_question (st : session_state) (question : str)
    (now_iso : str) (now : datetime) : session_state * outcome reply :=
  match process_question_try st question now_iso now with
  | (st, Ok r) => (st, Ok r)
  | (st, Raise e) =>
      match exn_cls e with
      | cls_BaseException_only => (st, Raise e)
      | cls_Exception =>
          let error_response :=
            lit "I encountered an issue while processing your question. Please try rephrasing it or ask something else." in
          let st :=
            match conversation_history st with
            | Some h =>
                set_conversation_history st
                  (h ++ [{| entry_timestamp := now;
                            entry_question := question;
                            entry_response := error_response;
                            entry_sql_query := lit "Error: " ++ exn_str e;
                            entry_results := None;
                            entry_confidence := sql_generator.f0_0;
                            entry_error := true |}])
            | None => st
            end in
          (st, Ok {| response := error_response; error := true |})
      end
  end.
End ProcessQuestion.
End main.

(** ** The error paths of the handlers and of the rendering *)

(** The definitions above take [str(e)] of a caught exception to be its
    text [exn_str e], [df.to_string(index=False)] to be a text and
    [str(df)] to be a text.  In Python each of the three runs code of the
    object and may itself raise.  The definitions of this module are the
    same functions with these paths written out: [str_raises e] is the
    exception that [str(e)] raises, if it raises, and [to_string] and
    [df_str] end as an [outcome].  Where the three return, the functions
    of this module are those above. *)
Module exact.
Section Exact.
Context {U : UnicodeDB} {L : sql_generator.Libraries}.
Context (str_raises : exn -> option exn).

(** [str(e)] *)
Definition str_exn (e : exn) : outcome str :=
  match str_raises e with
  | Some raised => Raise raised
  | None => Ok (exn_str e)
  end.

(** [SQLGenerator.generate_sql]; the handler of the outer [try]
    evaluates [str(e)] outside of any [try]. *)
Definition generate_sql (self : sql_generator.SQLGenerator) (question : str)
    : outcome sql_generator.SQLQuery :=
  schema_description ← sql_generator.get_schema_description self;
  table_info ← sql_generator.get_table_info_json self;
  try_except_Exception
    (result ← sql_generator.chain_run self schema_description table_info question;
     try_except
       (sql_generator.parse_response result)
       (Ok (sql_generator.create_fallback_query question [])))
    (fun e =>
       error ← str_exn e;
       Ok (sql_generator.create_fallback_query question error)).

Context {cell Value datetime : Type}.
Abbreviation DataFrame := (response_generator.DataFrame (cell := cell)).
Abbreviation query_results :=
  (response_generator.query_results (cell := cell) (Value := Value)).
Context (to_string df_str : DataFrame -> outcome str).
Context (py_str : Value -> outcome str).
Context (prompt_format : str -> str -> str -> str -> str).
Context (llm_invoke : str -> outcome str).
Context (execute_query : str -> outcome query_results).

(** The result-formatting step of [generate_response], which precedes
    its [try]. *)
Definition results_text (results : query_results) : outcome str :=
  match results with
  | response_generator.Frame df =>
      if response_generator.empty df then Ok (lit "No data found.")
      else if (10 <? response_generator.len df)%nat then
        rendered ← to_string (response_generator.head 10 df);
        Ok (lit "Found " ++ str_of_nat (response_generator.len df)
            ++ lit " records. Here are the first 10:" ++ nl ++ rendered)
      else to_string df
  | response_generator.Other v => py_str v
  end.

(** [ResponseGenerator.generate_response] *)
Definition generate_response (question sql_query : str)
    (results : query_results) (context : str) : outcome str :=
  results_text ← results_text results;
  try_except_Exception
    (llm_invoke (prompt_format question sql_query results_text context))
    (fun e =>
       Ok (lit "I found some results for your question '" ++ question
           ++ lit "'. Here's what I discovered: " ++ results_text)).

(** [str(results)], as [add_exchange] calls it. *)
Definition str_results (results : query_results) : outcome str :=
  match results with
  | response_generator.Frame df => df_str df
  | response_generator.Other v => py_str v
  end.

Abbreviation session_state :=
  (main.session_state (cell := cell) (Value := Value) (datetime := datetime)).

(** The body of the [try] of [process_question]. *)
Definition process_question_try (st : session_state) (question : str)
    (now_iso : str) (now : datetime) : session_state * outcome main.reply :=
  match generate_sql (main.sql_generator st) question with
  | Raise e => (st, Raise e)
  | Ok sql_result =>
      if negb (sql_generator.validate_sql (sql_generator.query sql_result)) then
        (st,
         Ok {| main.response := lit "I apologize, but I couldn't generate a safe query for your question. Could you please rephrase it?";
               main.error := true |})
      else
        let st :=
          main.set_executed st (main.executed st ++ [sql_generator.query sql_result]) in
        match execute_query (sql_generator.query sql_result) with
        | Raise e => (st, Raise e)
        | Ok query_results =>
            let context :=
              memory_manager.get_context_for_question (main.memory st)
                (main.session_id st) question in
            match generate_response question (sql_generator.query sql_result)
                    query_results context with
            | Raise e => (st, Raise e)
            | Ok response =>
                let added :=
                  memory_manager.add_exchange str_results (main.memory st)
                    (main.session_id st) question (sql_generator.query sql_result)
                    (memory_manager.Obj query_results) response now_iso in
                let st := main.set_memory st added.1 in
                match added.2 with
                | Raise e => (st, Raise e)
                | Ok _ =>
                    match main.conversation_history st with
                    | None => (st, Raise AttributeError)
                    | Some h =>
                        (main.set_conversation_history st
                           (h ++ [{| main.entry_timestamp := now;
                                     main.entry_question := question;
                                     main.entry_response := response;
                                     main.entry_sql_query := sql_generator.query sql_result;
                                     main.entry_results := Some query_results;
                                     main.entry_confidence :=
                                       sql_generator.confidence sql_result;
                                     main.entry_error := false |}]),
                         Ok {| main.response := response; main.error := false |})
                    end
                end
            end
        end
  end.

(** [SchoolDatabaseApp.process_question]; the handler evaluates
    [str(e)] while it builds the entry of the failure, which it does only
    where the session state has a conversation history. *)
Definition process_question (st : session_state) (question : str)
    (now_iso : str) (now : datetime) : session_state * outcome main.reply :=
  match process_question_try st question now_iso now with
  | (st, Ok r) => (st, Ok r)
  | (st, Raise e) =>
      match exn_cls e with
      | cls_BaseException_only => (st, Raise e)
      | cls_Exception =>
          let error_response :=
            lit "I encountered an issue while processing your question. Please try rephrasing it or ask something else." in
          match main.conversation_history st with
          | Some h =>
              match str_exn e with
              | Raise raised => (st, Raise raised)
              | Ok text =>
                  (main.set_conversation_history st
                     (h ++ [{| main.entry_timestamp := now;
                               main.entry_question := question;
                               main.entry_response := error_response;
                               main.entry_sql_query := lit "Error: " ++ text;
                               main.entry_results := None;
                               main.entry_confidence := sql_generator.f0_0;
                               main.entry_error := true |}]),
                   Ok {| main.response := error_response; main.error := true |})
              end
          | None =>
              (st, Ok {| main.response := error_response; main.error := true |})
          end
      end
  end.
End Exact.
End exact.

(** ** The vocabulary of the specification *)

(** [needle] occurs in [hay] as a contiguous part. *)
Definition substring (needle hay : str) : Prop :=
  exists before after, hay = before ++ needle ++ after.

(** [w] is [keyword] up to the case of its ASCII letters. *)
Definition caseless_eq (w keyword : str) : Prop :=
  map ascii_toupper w = keyword.

(** The lines of a text, separated by line feeds, and their joining. *)
Fixpoint lines (s : str) : list str :=
  match s with
  | [] => [[]]
  | c :: rest =>
      if c =? 10 then [] :: lines rest
      else match lines rest with
           | line :: more => (c :: line) :: more
           | [] => [[c]]
           end
  end.

Fixpoint unlines (ls : list str) : str :=
  match ls with
  | [] => []
  | [line] => line
  | line :: more => line ++ nl ++ unlines more
  end.

(** A line without its line comment: what stands before its first [--]. *)
Fixpoint before_comment (line : str) : str :=
  match line with
  | [] => []
  | c :: rest =>
      if (c =? 45) && startswith rest [45] then []
      else c :: before_comment rest
  end.

(** "removing line comments ([--] to end of line)" *)
Definition without_line_comments (q : str) : str :=
  unlines (map before_comment (lines q)).

(** The keywords the validator denies, as the specification lists them. *)
Definition denied : list str :=
  [lit "DROP"; lit "DELETE"; lit "UPDATE"; lit "INSERT"; lit "ALTER";
   lit "CREATE"; lit "TRUNCATE"].

(** "after removing line comments, trimming, and uppercasing, the
    resulting text contains none of the substrings ... and begins with
    SELECT" *)
Definition is_safe {U : UnicodeDB} (q : str) : Prop :=
  let text := upper (strip (without_line_comments q)) in
  (forall keyword, keyword ∈ denied -> ~ substring keyword text)
  /\ lit "SELECT" `prefix_of` text.

(** "q contains keyword case-insensitively outside line comments": some
    line of [q] reads [a ++ w ++ b] where [w] is the keyword up to case
    and no comment starts in [a]. *)
Definition occurs_outside_comments (keyword q : str) : Prop :=
  exists a w b,
    a ++ w ++ b ∈ lines q /\ caseless_eq w keyword /\ ~ substring [45; 45] a.

(** The [n] most recent entries of a log, oldest first. *)
Definition most_recent {A} (n : nat) (log : list A) : list A :=
  drop (length log - n) log.

(** The value a dict holds for a key, if any. *)
Fixpoint dict_lookup (items : list (str * sql_generator.json)) (key : str)
    : option sql_generator.json :=
  match items with
  | [] => None
  | (k, v) :: rest => if bool_decide (k = key) then Some v else dict_lookup rest key
  end.

(** One exchange in the context text: its question and its explanation
    on a [Q:] and an [A:] line, and an empty line. *)
Definition qa_text (qa : str * str) : str :=
  lit "Q: " ++ qa.1 ++ nl ++ lit "A: " ++ qa.2 ++ nl ++ nl.

Definition question_and_explanation {Value : Type}
    (e : memory_manager.Exchange (Value := Value)) : str * str :=
  (memory_manager.question e, memory_manager.explanation e).

(** The log of a session, empty for a session the memory does not know. *)
Definition log_of {Value : Type}
    (self : memory_manager.ConversationMemory (Value := Value))
    (session_id : str) : list memory_manager.Exchange :=
  default [] (memory_manager.conversations self !! session_id).

(** Every stored exchange has text in its [result] entry. *)
Definition results_are_str {Value : Type}
    (self : memory_manager.ConversationMemory (Value := Value)) : Prop :=
  map_Forall
    (fun _ log =>
       Forall (fun e => memory_manager.isinstance_str (memory_manager.result e) = true) log)
    (memory_manager.conversations self).

(** Two texts that differ at most in the case of their ASCII letters. *)
Definition same_up_to_case (s t : str) : Prop :=
  Forall2 (fun c d => ascii_toupper c = ascii_toupper d) s t.

(** The part of the schema description that one table contributes. *)
Definition table_block (self : schema_analyzer.SchemaAnalyzer) (table : str) : str :=
  (lit "Table: " ++ table ++ nl) ++ (lit "Columns:" ++ nl)
  ++ concat (map schema_analyzer.column_line (schema_analyzer.columns_of self table))
  ++ match schema_analyzer.foreign_keys_of self table with
     | [] => []
     | _ :: _ =>
         (lit "Relationships:" ++ nl)
         ++ concat (map schema_analyzer.relationship_line
                      (schema_analyzer.foreign_keys_of self table))
     end
  ++ nl.

(** The entry of [get_table_info_for_llm] for a row of the catalogue. *)
Definition column_info_of (col : schema_analyzer.column_row)
    : schema_analyzer.column_info :=
  {| schema_analyzer.name := schema_analyzer.COLUMN_NAME col;
     schema_analyzer.type := schema_analyzer.DATA_TYPE col;
     schema_analyzer.nullable :=
       bool_decide (schema_analyzer.IS_NULLABLE col = lit "YES");
     schema_analyzer.key := schema_analyzer.COLUMN_KEY col;
     schema_analyzer.default := schema_analyzer.COLUMN_DEFAULT col |}.

(** ** Stand-ins for running the model on concrete input *)

(** Libraries whose [json.loads] answers [parsed] for every text and
    whose conversions refuse everything, and a generator whose schema
    analyzer answers and whose chain ends as [run]. *)
Definition ValueError : exn := Exn cls_Exception (lit "ValueError").

Definition stub_libraries (parsed : sql_generator.json) : sql_generator.Libraries := {|
  sql_generator.json_loads := fun _ => Ok parsed;
  sql_generator.float_of_int := fun _ => Raise ValueError;
  sql_generator.float_of_str := fun _ => Raise ValueError;
  sql_generator.pydantic_str_of_other := fun _ => Raise ValueError
|}.

Definition stub_generator (run : outcome str) : sql_generator.SQLGenerator := {|
  sql_generator.get_schema_description := Ok (lit "School Database Schema Description:");
  sql_generator.get_table_info_json := Ok (lit "{}");
  sql_generator.chain_run := fun _ _ _ => run
|}.

(** A session state for running [process_question]: a new memory, an
    empty history, nothing executed, and a chain that ends as [run]. *)
Definition stub_state (run : outcome str)
    : main.session_state (cell := Empty_set) (Value := Empty_set) (datetime := unit) := {|
  main.sql_generator := stub_generator run;
  main.memory := memory_manager.init;
  main.session_id := lit "s1";
  main.conversation_history := Some [];
  main.executed := []
|}.

(** A database that answers every statement with a frame of one column
    and no rows. *)
Definition stub_execute_query (_ : str)
    : outcome (response_generator.query_results (cell := Empty_set) (Value := Empty_set)) :=
  Ok (response_generator.Frame
        {| response_generator.columns := [lit "n"]; response_generator.rows := [] |}).

Definition stub_process_question (L : sql_generator.Libraries) (run : outcome str)
    (question : str) :=
  main.process_question (U := ascii_only) (L := L)
    (fun _ => lit "rows") (fun _ => lit "rows") (fun v : Empty_set => match v with end)
    (fun question _ results _ => question ++ results)
    (fun _ => Ok (lit "Nothing was found."))
    stub_execute_query (stub_state run) question (lit "2024-01-01T00:00:00") ().

(** * Proofs *)

(** ** Text *)

Lemma startswith_prefix (s p : str) : startswith s p = true <-> p `prefix_of` s.
Proof.
  revert s. induction p as [|x p IH]; intros s; simpl.
  - split; [intros _; apply prefix_nil | done].
  - destruct s as [|y s].
    + split; [done | intros Hp; by apply prefix_nil_not in Hp].
    + rewrite andb_true_iff, N.eqb_eq, IH. split.
      * intros [-> Hp]. by apply prefix_cons.
      * intros Hp. split; [by apply prefix_cons_inv_1 in Hp | by apply prefix_cons_inv_2 in Hp].
Qed.

Lemma contains_substring (needle hay : str) :
  contains needle hay = true <-> substring needle hay.
Proof.
  induction hay as [|c hay IH]; simpl.
  - rewrite orb_false_r, startswith_prefix. split.
    + intros [k Hk]. exists [], k. exact Hk.
    + intros (b & a & Hba). destruct b; simpl in Hba.
      * by exists a.
      * discriminate.
  - rewrite orb_true_iff, startswith_prefix, IH. split.
    + intros [[k Hk] | (b & a & Hba)].
      * exists [], k. exact Hk.
      * exists (c :: b), a. simpl. by f_equal.
    + intros (b & a & Hba). destruct b as [|c' b]; simpl in Hba.
      * left. by exists a.
      * right. exists b, a. by injection Hba.
Qed.

(** ** The query validator *)

Import sql_generator.

Lemma lines_cons (s : str) : exists line more, lines s = line :: more.
Proof.
  induction s as [|c s (line & more & IH)]; simpl; [by eauto|].
  destruct (c =? 10); [by eauto|]. rewrite IH. by eauto.
Qed.

Lemma unlines_cons_cons (c : char) (line : str) (more : list str) :
  unlines ((c :: line) :: more) = c :: unlines (line :: more).
Proof. by destruct more. Qed.

Lemma startswith_first_line (s line : str) (more : list str) (c : char) :
  c <> 10 -> lines s = line :: more -> startswith s [c] = startswith line [c].
Proof.
  intros Hc. destruct s as [|d s]; simpl.
  - by intros [= <- <-].
  - destruct (N.eqb_spec d 10) as [->|Hd].
    + intros [= <- <-]. simpl. destruct (N.eqb_spec c 10); [done|].
      by rewrite andb_false_l.
    + destruct (lines_cons s) as (l & m & ->). by intros [= <- <-].
Qed.

Lemma sub_line_comments_lines (s line : str) (more : list str) :
  lines s = line :: more ->
  sub_line_comments false s = unlines (before_comment line :: map before_comment more)
  /\ sub_line_comments true s = unlines ([] :: map before_comment more).
Proof.
  revert line more. induction s as [|c s IH]; intros line more.
  - by intros [= <- <-].
  - destruct (lines_cons s) as (l & m & Hs). destruct (IH _ _ Hs) as [IHf IHt].
    cbn [sub_line_comments lines]. rewrite Hs.
    destruct (N.eqb_spec c 10) as [->|Hc]; intros [= <- <-].
    + rewrite IHf. cbn. by destruct (map before_comment m).
    + split; [|done]. cbn [before_comment].
      rewrite (startswith_first_line s l m 45 ltac:(done) Hs).
      destruct ((c =? 45) && startswith l [45]); [done|].
      by rewrite IHf, unlines_cons_cons.
Qed.

Lemma sub_line_comments_spec (q : str) :
  sub_line_comments false q = without_line_comments q.
Proof.
  unfold without_line_comments. destruct (lines_cons q) as (l & m & Hq).
  rewrite Hq. by apply sub_line_comments_lines.
Qed.

Lemma keyword_loop_None (keywords : list str) (text : str) :
  keyword_loop keywords text = None <->
  forall keyword, keyword ∈ keywords -> ~ substring keyword text.
Proof.
  induction keywords as [|k ks IH]; simpl.
  - split; [|done]. intros _ kw Hkw. by apply elem_of_nil in Hkw.
  - destruct (contains k text) eqn:Hk.
    + split; [done|]. intros Hall. exfalso. apply (Hall k); [by left|].
      by apply contains_substring.
    + rewrite IH. split.
      * intros Hall kw [->|Hkw]%elem_of_cons; [|by apply Hall].
        rewrite <- contains_substring. by rewrite Hk.
      * intros Hall kw Hkw. apply Hall. by right.
Qed.

Lemma keyword_loop_Some (keywords : list str) (text : str) (r : bool) :
  keyword_loop keywords text = Some r -> r = false.
Proof.
  induction keywords as [|k ks IH]; simpl; [done|].
  destruct (contains k text); [by intros [= <-] | done].
Qed.

Lemma validate_sql_is_safe {U : UnicodeDB} (q : str) :
  validate_sql q = true <-> is_safe q.
Proof.
  unfold validate_sql, is_safe. rewrite sub_line_comments_spec.
  set (text := upper (strip (without_line_comments q))).
  change dangerous_keywords with denied. cbv zeta.
  destruct (keyword_loop denied text) as [r|] eqn:Hloop.
  - apply keyword_loop_Some in Hloop as Hr. subst r. split; [done|].
    intros [Hnone _]. apply (proj2 (keyword_loop_None _ _)) in Hnone. congruence.
  - pose proof (proj1 (keyword_loop_None _ _) Hloop) as Hnone.
    rewrite <- startswith_prefix.
    destruct (startswith text (lit "SELECT")); simpl; split; try done; tauto.
Qed.

(** *** Words of ASCII letters *)

Lemma isupper_toupper_isalpha (c : char) :
  ascii_isupper (ascii_toupper c) = true -> ascii_isalpha c = true.
Proof.
  unfold ascii_isalpha, ascii_toupper. destruct (ascii_islower c) eqn:Hl.
  - by rewrite orb_true_r.
  - intros ->. done.
Qed.

Lemma caseless_eq_isalpha (w keyword : str) :
  caseless_eq w keyword -> forallb ascii_isupper keyword = true ->
  Forall (fun c => ascii_isalpha c = true) w.
Proof.
  unfold caseless_eq. intros <-. induction w as [|c w IH]; simpl; [done|].
  intros [Hc Hw]%andb_true_iff. constructor; [|by apply IH].
  by apply isupper_toupper_isalpha.
Qed.

Lemma isalpha_bounds (c : char) :
  ascii_isalpha c = true -> (65 <= c <= 90) \/ (97 <= c <= 122).
Proof.
  unfold ascii_isalpha, ascii_isupper, ascii_islower.
  intros [H|H]%orb_true_iff; apply andb_true_iff in H as [H1 H2];
    apply N.leb_le in H1, H2; lia.
Qed.

Lemma isalpha_not_dash (c : char) : ascii_isalpha c = true -> c <> 45.
Proof. intros Hc%isalpha_bounds. lia. Qed.

Lemma isalpha_not_space {U : UnicodeDB} (c : char) :
  ascii_isalpha c = true -> py_isspace c = false.
Proof.
  intros Hc%isalpha_bounds. unfold py_isspace, is_ascii, ascii_isspace.
  destruct (N.ltb_spec c 128); [|lia].
  apply orb_false_iff; split; apply andb_false_iff.
  - right. apply N.leb_gt. lia.
  - right. apply N.leb_gt. lia.
Qed.

Lemma isalpha_toupper {U : UnicodeDB} (c : char) :
  ascii_isalpha c = true -> py_toupper c = [ascii_toupper c].
Proof.
  intros Hc%isalpha_bounds. unfold py_toupper, is_ascii.
  destruct (N.ltb_spec c 128); [done|lia].
Qed.

Lemma upper_isalpha {U : UnicodeDB} (w : str) :
  Forall (fun c => ascii_isalpha c = true) w -> upper w = map ascii_toupper w.
Proof.
  unfold upper. induction 1 as [|c w Hc _ IH]; simpl; [done|].
  by rewrite isalpha_toupper, IH.
Qed.

Lemma upper_app {U : UnicodeDB} (s t : str) : upper (s ++ t) = upper s ++ upper t.
Proof. apply flat_map_app. Qed.

(** *** Contiguous parts *)

Lemma substring_trans (u v w : str) :
  substring u v -> substring v w -> substring u w.
Proof.
  intros (a & b & ->) (c & d & ->). exists (c ++ a), (b ++ d).
  by rewrite <- !app_assoc.
Qed.

Lemma substring_unlines (line : str) (ls : list str) :
  line ∈ ls -> substring line (unlines ls).
Proof.
  induction ls as [|l ls IH]; [by intros ?%elem_of_nil|].
  intros [->|Hin]%elem_of_cons.
  - destruct ls as [|l' ls]; [by exists [], []; rewrite app_nil_r|].
    by exists [], (nl ++ unlines (l' :: ls)).
  - destruct (IH Hin) as (a & b & Hab).
    destruct ls as [|l' ls]; [by apply elem_of_nil in Hin|].
    exists (l ++ nl ++ a), b. change (unlines (l :: l' :: ls))
      with (l ++ nl ++ unlines (l' :: ls)).
    rewrite Hab. by rewrite <- !app_assoc.
Qed.

Lemma substring_upper {U : UnicodeDB} (w text : str) :
  substring w text -> substring (upper w) (upper text).
Proof. intros (a & b & ->). exists (upper a), (upper b). by rewrite !upper_app. Qed.

(** *** Trimming keeps a word that has no white space *)

Lemma lstrip_keeps {U : UnicodeDB} (w before after : str) :
  w <> [] -> Forall (fun c => py_isspace c = false) w ->
  exists before', lstrip (before ++ w ++ after) = before' ++ w ++ after.
Proof.
  intros Hne Hw. induction before as [|x before IH]; simpl.
  - exists []. destruct Hw as [|c w Hc _]; [done|]. simpl. by rewrite Hc.
  - destruct (py_isspace x); [done|]. by exists (x :: before).
Qed.

Lemma substring_strip {U : UnicodeDB} (w text : str) :
  w <> [] -> Forall (fun c => py_isspace c = false) w ->
  substring w text -> substring w (strip text).
Proof.
  intros Hne Hw (a & b & ->). unfold strip, rstrip.
  destruct (lstrip_keeps w a b Hne Hw) as (a' & ->).
  rewrite !rev_app_distr.
  destruct (lstrip_keeps (rev w) (rev b) (rev a')) as (b' & Hb).
  - intros Hr. apply Hne. by rewrite <- (rev_involutive w), Hr.
  - by apply Forall_rev.
  - rewrite <- app_assoc, Hb, !rev_app_distr, !rev_involutive.
    exists a', (rev b'). by rewrite <- app_assoc.
Qed.

(** *** The part of a line before its comment keeps a word before it *)

Lemma before_comment_word (w after : str) :
  Forall (fun c => c <> 45) w ->
  before_comment (w ++ after) = w ++ before_comment after.
Proof.
  induction 1 as [|c w Hc _ IH]; [done|]. cbn [app before_comment].
  destruct (N.eqb_spec c 45); [done|]. by rewrite andb_false_l, IH.
Qed.

Lemma before_comment_no_comment (a rest : str) (c : char) :
  ~ substring [45; 45] a -> c <> 45 ->
  before_comment (a ++ c :: rest) = a ++ before_comment (c :: rest).
Proof.
  intros Ha Hc. induction a as [|x a IH]; [done|]. cbn [app before_comment].
  destruct ((x =? 45) && startswith (a ++ c :: rest) [45]) eqn:Hx.
  - exfalso. apply andb_true_iff in Hx as [->%N.eqb_eq Hs].
    destruct a as [|y a]; cbn [app startswith] in Hs.
    + apply andb_true_iff in Hs as [?%N.eqb_eq _]. congruence.
    + apply andb_true_iff in Hs as [<-%N.eqb_eq _]. apply Ha. by exists [], a.
  - f_equal. apply IH. intros (u & v & ->). apply Ha. by exists (x :: u), v.
Qed.

Lemma denied_words (keyword : str) :
  keyword ∈ denied -> forallb ascii_isupper keyword = true /\ keyword <> [].
Proof.
  intros Hin.
  assert (forallb (fun k => forallb ascii_isupper k && negb (bool_decide (k = []))) denied
          = true) as Hall by reflexivity.
  rewrite forallb_forall in Hall. apply list_elem_of_In, Hall in Hin.
  apply andb_true_iff in Hin as [Hup Hne]. split; [done|].
  intros ->. done.
Qed.

Lemma occurrence_survives {U : UnicodeDB} (keyword q : str) :
  keyword ∈ denied -> occurs_outside_comments keyword q ->
  substring keyword (upper (strip (without_line_comments q))).
Proof.
  intros [Hup Hne]%denied_words (a & w & b & Hin & Hcase & Ha).
  pose proof (caseless_eq_isalpha _ _ Hcase Hup) as Hw.
  assert (w <> []) as Hwne by (intros ->; by apply Hne).
  rewrite <- Hcase, <- (upper_isalpha w Hw).
  apply substring_upper, substring_strip; [done| |].
  { eapply Forall_impl; [exact Hw|]. intros c. apply isalpha_not_space. }
  apply (substring_trans _ (before_comment (a ++ w ++ b))).
  - destruct w as [|c w]; [done|]. apply Forall_cons in Hw as Hcw.
    destruct Hcw as [Hc _].
    change (a ++ (c :: w) ++ b) with (a ++ c :: (w ++ b)).
    rewrite before_comment_no_comment by (done || by apply isalpha_not_dash).
    change (c :: w ++ b) with ((c :: w) ++ b). rewrite before_comment_word.
    + by exists a, (before_comment b).
    + eapply Forall_impl; [exact Hw|]. intros d. apply isalpha_not_dash.
  - apply substring_unlines, list_elem_of_In, in_map. by apply list_elem_of_In.
Qed.

(** C1. [validate_sql] accepts a query exactly when, after removing line
    comments, trimming and uppercasing, the text contains none of DROP,
    DELETE, UPDATE, INSERT, ALTER, CREATE, TRUNCATE and begins with SELECT.
    In particular it rejects a query in which one of those keywords occurs,
    in any case, outside line comments, and a query whose normalised text
    does not begin with SELECT. *)
Theorem validate_sql_spec {U : UnicodeDB} (q : str) :
  (validate_sql q = true <-> is_safe q)
  /\ (forall keyword, keyword ∈ denied ->
        occurs_outside_comments keyword q -> validate_sql q = false)
  /\ (~ lit "SELECT" `prefix_of` upper (strip (without_line_comments q)) ->
        validate_sql q = false).
Proof.
  pose proof (validate_sql_is_safe q) as Hiff. split; [done|].
  split.
  - intros keyword Hk Hocc. apply not_true_is_false. intros Hv.
    apply Hiff in Hv as [Hnone _]. apply (Hnone keyword Hk).
    by apply occurrence_survives.
  - intros Hsel. apply not_true_is_false. intros Hv.
    apply Hiff in Hv as [_ Hp]. by apply Hsel.
Qed.

(** The validator on the queries the specification discusses: a keyword
    inside a line comment is not seen, a lower-case query is accepted, a
    [DELETE] is refused, and so is a column named [update_count]. *)
Example validate_sql_comment :
  validate_sql (U := ascii_only)
    (lit "  select name -- drop nothing" ++ nl ++ lit "from students") = true.
Proof. reflexivity. Qed.

Example validate_sql_delete :
  validate_sql (U := ascii_only) (lit "DELETE FROM students") = false.
Proof. reflexivity. Qed.

Example validate_sql_update_count :
  validate_sql (U := ascii_only) (lit "SELECT update_count FROM jobs") = false.
Proof. reflexivity. Qed.

(** ** The fallback ladder *)

Lemma contains_false (needle hay : str) :
  contains needle hay = false <-> ~ substring needle hay.
Proof.
  rewrite <- contains_substring. by destruct (contains needle hay).
Qed.

Ltac ladder_cases :=
  repeat match goal with
  | |- context [contains ?n ?h] =>
      let E := fresh "E" in
      destruct (contains n h) eqn:E;
      [apply contains_substring in E | apply contains_false in E]
  end.

(** C2. [create_fallback_query] tries its rules in order on the
    lower-cased question and the first that matches wins: "class" and
    "all" give the list-all-classes query, whatever else the question
    contains; otherwise "student" and "count" give the count query;
    otherwise "student" and "all" give the list-all-students query, each
    with confidence 0.7; otherwise the query selects a literal error
    string as its only column, with confidence 0.0 and an explanation that
    embeds the question and the error text. *)
Theorem create_fallback_query_ladder {U : UnicodeDB} (question error : str) :
  let has word := substring (lit word) (lower question) in
  let rule1 := has "class" /\ has "all" in
  let rule2 := has "student" /\ has "count" in
  let rule3 := has "student" /\ has "all" in
  (rule1 ->
     create_fallback_query question error =
       {| query := lit "SELECT class_id, class_name FROM classes LIMIT 100";
          explanation := lit "Showing all classes from the database";
          confidence := f0_7 |})
  /\ (~ rule1 -> rule2 ->
     create_fallback_query question error =
       {| query := lit "SELECT COUNT(*) as total_students FROM students";
          explanation := lit "Counting total number of students";
          confidence := f0_7 |})
  /\ (~ rule1 -> ~ rule2 -> rule3 ->
     create_fallback_query question error =
       {| query := lit "SELECT roll_no, first_name, last_name, age FROM students LIMIT 100";
          explanation := lit "Showing all students in the database";
          confidence := f0_7 |})
  /\ (~ rule1 -> ~ rule2 -> ~ rule3 ->
     create_fallback_query question error =
       {| query := lit "SELECT 'Error: Could not generate query' as error_message";
          explanation := lit "Failed to generate query for: " ++ question
                         ++ lit ". Error: " ++ error;
          confidence := f0_0 |}).
Proof.
  cbv zeta. unfold create_fallback_query.
  repeat split; intros; ladder_cases; simpl; tauto.
Qed.

(** C4, as the code has it.  A question whose lower-cased text contains
    "student" and "count", and does not contain both "class" and "all",
    gets exactly the count query with confidence 0.7. *)
Theorem fallback_count_students {U : UnicodeDB} (question error : str) :
  substring (lit "student") (lower question) ->
  substring (lit "count") (lower question) ->
  ~ (substring (lit "class") (lower question)
     /\ substring (lit "all") (lower question)) ->
  query (create_fallback_query question error)
    = lit "SELECT COUNT(*) as total_students FROM students"
  /\ confidence (create_fallback_query question error) = f0_7.
Proof.
  intros Hs Hc Hno. unfold create_fallback_query.
  ladder_cases; simpl; tauto.
Qed.

Lemma fallback_count_students_witness :
  query (create_fallback_query (U := ascii_only) (lit "Count the students") [])
    = lit "SELECT COUNT(*) as total_students FROM students"
  /\ confidence (create_fallback_query (U := ascii_only) (lit "Count the students") [])
    = f0_7.
Proof.
  apply (fallback_count_students (U := ascii_only)).
  - apply contains_substring. vm_compute. reflexivity.
  - apply contains_substring. vm_compute. reflexivity.
  - intros [Hc _]. apply contains_substring in Hc. vm_compute in Hc. discriminate.
Defined.

(** C4, as stated, fails: the question below contains "student" and
    "count" in lower case, and also "class" and "all", so for every
    character database and every error text the first rule answers with
    the list-all-classes query. *)
Lemma fallback_count_students_shadowed :
  exists question : str,
    forall (U : UnicodeDB) (error : str),
      substring (lit "student") (lower question)
      /\ substring (lit "count") (lower question)
      /\ query (create_fallback_query question error)
           = lit "SELECT class_id, class_name FROM classes LIMIT 100"
      /\ query (create_fallback_query question error)
           <> lit "SELECT COUNT(*) as total_students FROM students".
Proof.
  exists (lit "Count all students in each class"). intros U error.
  split; [|split; [|split]].
  - apply contains_substring. vm_compute. reflexivity.
  - apply contains_substring. vm_compute. reflexivity.
  - vm_compute. reflexivity.
  - vm_compute. discriminate.
Qed.

(** C9. Whatever the question and the error text, the query of the
    fallback path passes [validate_sql]. *)
Theorem fallback_query_is_valid {U : UnicodeDB} (question error : str) :
  validate_sql (query (create_fallback_query question error)) = true.
Proof.
  unfold create_fallback_query.
  repeat match goal with
  | |- context [if ?b then _ else _] => destruct b
  end; vm_compute; reflexivity.
Qed.

(** ** The model-driven path *)

Lemma dict_get_lookup (items : list (str * json)) (key : str) (default : json) :
  dict_get items key default =
    match dict_lookup items key with Some v => v | None => default end.
Proof.
  induction items as [|[k v] items IH]; simpl; [done|].
  by destruct (bool_decide (k = key)).
Qed.

(** The schema description is computed before the [try]: when the
    schema analyzer raises, so does [generate_sql]. *)
Lemma generate_sql_schema_raises {U : UnicodeDB} {L : Libraries}
    (self : SQLGenerator) (question : str) (e : exn) :
  get_schema_description self = Raise e \/
  (exists schema_description, get_schema_description self = Ok schema_description
     /\ get_table_info_json self = Raise e) ->
  generate_sql self question = Raise e.
Proof.
  unfold generate_sql. intros [-> | (sd & -> & ->)]; done.
Qed.

Section GenerateSql.
Context {U : UnicodeDB} {L : Libraries}.
Variables (self : SQLGenerator) (question schema_description table_info : str).
Hypothesis Hschema : get_schema_description self = Ok schema_description.
Hypothesis Hinfo : get_table_info_json self = Ok table_info.


Lemma generate_sql_run_raises_other (e : exn) :
  chain_run self schema_description table_info question = Raise e ->
  exn_cls e = cls_BaseException_only ->
  generate_sql self question = Raise e.
Proof.
  intros Hrun Hcls. unfold generate_sql. rewrite Hschema, Hinfo. cbn.
  rewrite Hrun. cbn. by rewrite Hcls.
Qed.

Lemma generate_sql_run_returns (result : str) :
  chain_run self schema_description table_info question = Ok result ->
  generate_sql self question =
    match parse_response result with
    | Ok q => Ok q
    | Raise _ => Ok (create_fallback_query question [])
    end.
Proof.
  intros Hrun. unfold generate_sql. rewrite Hschema, Hinfo. cbn.
  rewrite Hrun. cbn. by destruct (parse_response result).
Qed.
End GenerateSql.

Section ParseResponse.
Context {U : UnicodeDB} {L : Libraries}.
Variables (result cleaned : str).
Hypothesis Hclean : clean_response result = Ok cleaned.

Lemma parse_response_loads_raises (e : exn) :
  json_loads cleaned = Raise e -> parse_response result = Raise e.
Proof. intros Hl. unfold parse_response. rewrite Hclean. cbn. by rewrite Hl. Qed.

Lemma parse_response_not_dict (parsed : json) :
  json_loads cleaned = Ok parsed -> (forall items, parsed <> JDict items) ->
  parse_response result = Raise AttributeError.
Proof.
  intros Hl Hnd. unfold parse_response. rewrite Hclean. cbn. rewrite Hl. cbn.
  destruct parsed; try done. by destruct (Hnd items).
Qed.

Lemma parse_response_dict (items : list (str * json)) :
  json_loads cleaned = Ok (JDict items) ->
  parse_response result =
    (c ← py_float (dict_get items (lit "confidence") (JFloat f0_8));
     SQLQuery_new
       (dict_get items (lit "query") (JStr (lit "SELECT * FROM classes LIMIT 10")))
       (dict_get items (lit "explanation") (JStr (lit "Generated SQL query")))
       c).
Proof.
  intros Hl. unfold parse_response. rewrite Hclean. cbn. by rewrite Hl.
Qed.
End ParseResponse.

Lemma fallback_confidence {U : UnicodeDB} (question error : str) :
  confidence (create_fallback_query question error) = f0_7
  \/ confidence (create_fallback_query question error) = f0_0.
Proof.
  unfold create_fallback_query.
  repeat match goal with
  | |- context [if ?b then _ else _] => destruct b
  end; simpl; auto.
Qed.

Lemma fallback_confidence_not_default {U : UnicodeDB} (question error : str) :
  confidence (create_fallback_query question error) <> f0_8.
Proof.
  intros Heq.
  assert (PrimFloat.eqb (confidence (create_fallback_query question error)) f0_8 = true)
    as Hb by (rewrite Heq; reflexivity).
  destruct (fallback_confidence question error) as [E|E]; rewrite E in Hb;
    vm_compute in Hb; discriminate.
Qed.

(** C8, as the code has it.  When the model's output parses as a JSON
    object whose query and explanation fields pydantic accepts,
    [generate_sql] builds the query from the parsed fields: the confidence
    is 0.8 when the field is absent and [float] of its value when that
    conversion succeeds.  When [float] refuses the value, the result is
    the query of the fallback path. *)
Theorem generate_sql_parse_success {U : UnicodeDB} {L : Libraries}
    (self : SQLGenerator) (question schema_description table_info : str)
    (result cleaned : str) (items : list (str * json)) (q e : str) :
  get_schema_description self = Ok schema_description ->
  get_table_info_json self = Ok table_info ->
  chain_run self schema_description table_info question = Ok result ->
  clean_response result = Ok cleaned ->
  json_loads cleaned = Ok (JDict items) ->
  str_field (dict_get items (lit "query")
               (JStr (lit "SELECT * FROM classes LIMIT 10"))) = Ok q ->
  str_field (dict_get items (lit "explanation")
               (JStr (lit "Generated SQL query"))) = Ok e ->
  (dict_lookup items (lit "confidence") = None ->
     generate_sql self question =
       Ok {| query := q; explanation := e; confidence := f0_8 |})
  /\ (forall v c, dict_lookup items (lit "confidence") = Some v ->
        py_float v = Ok c ->
        generate_sql self question =
          Ok {| query := q; explanation := e; confidence := c |})
  /\ (forall v err, dict_lookup items (lit "confidence") = Some v ->
        py_float v = Raise err ->
        generate_sql self question = Ok (create_fallback_query question [])).
Proof.
  intros Hschema Hinfo Hrun Hclean Hloads Hq He.
  rewrite (generate_sql_run_returns self question _ _ Hschema Hinfo result Hrun).
  rewrite (parse_response_dict _ _ Hclean items Hloads).
  rewrite (dict_get_lookup items (lit "confidence")).
  unfold SQLQuery_new. rewrite Hq, He.
  split; [|split].
  - by intros ->.
  - intros v c -> Hc. by rewrite Hc.
  - intros v err -> Hc. by rewrite Hc.
Qed.

Lemma generate_sql_parse_success_witness :
  generate_sql (U := ascii_only)
    (L := stub_libraries (JDict [(lit "query", JStr (lit "SELECT 1"))]))
    (stub_generator (Ok (lit "{}"))) (lit "hello")
  = Ok {| query := lit "SELECT 1"; explanation := lit "Generated SQL query";
          confidence := f0_8 |}.
Proof.
  refine (proj1 (generate_sql_parse_success (U := ascii_only)
            (L := stub_libraries (JDict [(lit "query", JStr (lit "SELECT 1"))]))
            (stub_generator (Ok (lit "{}"))) (lit "hello")
            (lit "School Database Schema Description:") (lit "{}")
            (lit "{}") (lit "{}") [(lit "query", JStr (lit "SELECT 1"))]
            (lit "SELECT 1") (lit "Generated SQL query")
            _ _ _ _ _ _ _) _); reflexivity.
Defined.

(** C8, as stated, fails: for the object below, whose confidence is
    [null], [float] raises, and whatever the question the result is the
    query of the fallback path, whose confidence is not 0.8. *)
Lemma malformed_confidence_falls_back :
  exists items : list (str * json),
    dict_lookup items (lit "query") = Some (JStr (lit "SELECT 1"))
    /\ dict_lookup items (lit "explanation") = Some (JStr (lit "one"))
    /\ dict_lookup items (lit "confidence") = Some JNull
    /\ (forall (U : UnicodeDB) (L : Libraries) (self : SQLGenerator)
         (question schema_description table_info result cleaned : str),
         get_schema_description self = Ok schema_description ->
         get_table_info_json self = Ok table_info ->
         chain_run self schema_description table_info question = Ok result ->
         clean_response result = Ok cleaned ->
         json_loads cleaned = Ok (JDict items) ->
         generate_sql self question = Ok (create_fallback_query question [])
         /\ confidence (create_fallback_query question []) <> f0_8)
    /\ generate_sql (U := ascii_only) (L := stub_libraries (JDict items))
         (stub_generator (Ok (lit "{}"))) (lit "hello")
       = Ok (create_fallback_query (U := ascii_only) (lit "hello") []).
Proof.
  exists [(lit "query", JStr (lit "SELECT 1"));
          (lit "explanation", JStr (lit "one"));
          (lit "confidence", JNull)].
  split; [reflexivity|]. split; [reflexivity|]. split; [reflexivity|].
  split; [|reflexivity].
  intros U L self question sd ti result cleaned Hschema Hinfo Hrun Hclean Hloads.
  split; [|apply fallback_confidence_not_default].
  rewrite (generate_sql_run_returns self question _ _ Hschema Hinfo result Hrun).
  by rewrite (parse_response_dict _ _ Hclean _ Hloads).
Qed.

(** ** The conversation memory *)

Section MemoryProofs.
Import memory_manager.
Context {Value : Type} (py_str : Value -> outcome str).
Implicit Types (self : ConversationMemory (Value := Value)).
Implicit Types (log : list (Exchange (Value := Value))).

Lemma slice_from_negative {A} (l : list A) (n : Z) :
  (0 < n)%Z -> slice_from l (- n) = most_recent (Z.to_nat n) l.
Proof.
  intros Hn. unfold slice_from, most_recent.
  destruct (Z.ltb_spec (- n) 0); [|lia]. f_equal. lia.
Qed.

Lemma slice_from_zero {A} (l : list A) : slice_from l 0 = l.
Proof. unfold slice_from. simpl. by rewrite Z.min_l by lia. Qed.

Lemma most_recent_most_recent {A} (l : list A) (n m : nat) :
  (n <= m)%nat -> most_recent n (most_recent m l) = most_recent n l.
Proof.
  intros Hnm. unfold most_recent. rewrite drop_drop, length_drop. f_equal. lia.
Qed.

Lemma most_recent_length {A} (l : list A) (n : nat) :
  (length (most_recent n l) <= n)%nat.
Proof. unfold most_recent. rewrite length_drop. lia. Qed.

Lemma most_recent_nil_inv {A} (l : list A) (n : nat) :
  (0 < n)%nat -> most_recent n l = [] -> l = [].
Proof.
  unfold most_recent. intros Hn Hd%drop_nil_inv.
  destruct l; [done|]. simpl in Hd. lia.
Qed.

Lemma most_recent_map {A B} (f : A -> B) (l : list A) (n : nat) :
  most_recent n (map f l) = map f (most_recent n l).
Proof. unfold most_recent. by rewrite length_map, skipn_map. Qed.

Lemma get_conversation_history_log self (session_id : str) (limit : Z) :
  get_conversation_history self session_id limit
    = slice_from (log_of self session_id) (- limit).
Proof.
  unfold get_conversation_history, log_of.
  destruct (conversations self !! session_id); [done|].
  unfold slice_from. simpl. by rewrite drop_nil.
Qed.

Lemma get_conversation_history_positive self (session_id : str) (limit : Z) :
  (0 < limit)%Z ->
  get_conversation_history self session_id limit
    = most_recent (Z.to_nat limit) (log_of self session_id).
Proof.
  intros Hl. rewrite get_conversation_history_log. by apply slice_from_negative.
Qed.

Lemma context_fold log (context : str) :
  fold_left
    (fun context exchange =>
       (context ++ (lit "Q: " ++ question exchange ++ nl))
       ++ (lit "A: " ++ explanation exchange ++ nl ++ nl))
    log context
  = context ++ concat (map qa_text (map question_and_explanation log)).
Proof.
  revert context. induction log as [|e log IH]; intros context.
  - cbn [fold_left map concat]. by rewrite app_nil_r.
  - cbn [fold_left map concat]. rewrite IH.
    unfold qa_text at 2, question_and_explanation at 2. cbn [fst snd].
    by rewrite <- !app_assoc.
Qed.

Lemma get_context_for_question_log self (session_id current_question : str) :
  get_context_for_question self session_id current_question =
    match log_of self session_id with
    | [] => []
    | _ :: _ =>
        lit "Previous conversation context:" ++ nl
        ++ concat (map qa_text
             (most_recent 3 (map question_and_explanation (log_of self session_id))))
    end.
Proof.
  unfold get_context_for_question.
  rewrite (get_conversation_history_positive self session_id 5) by lia.
  change (Z.to_nat 5) with 5%nat.
  destruct (most_recent 5 (log_of self session_id)) as [|e l] eqn:Hrecent.
  - apply most_recent_nil_inv in Hrecent; [|lia]. by rewrite Hrecent.
  - rewrite <- Hrecent. rewrite (slice_from_negative _ 3) by lia.
    change (Z.to_nat 3) with 3%nat.
    rewrite most_recent_most_recent by lia. rewrite context_fold.
    rewrite most_recent_map, <- app_assoc.
    destruct (log_of self session_id); [|done].
    unfold most_recent in Hrecent. by rewrite drop_nil in Hrecent.
Qed.

(** C6. The context text is empty when the session has no exchanges (a
    session the memory does not know has none).  Otherwise it is a
    heading followed by the [Q:] and [A:] lines of the 3 most recent
    exchanges, or of all of them when there are fewer.  It is built
    from the stored questions and explanations alone, so two logs that
    agree on them give the same text, and the current question plays no
    part. *)
Theorem get_context_for_question_spec self (session_id current_question : str) :
  (log_of self session_id = [] ->
     get_context_for_question self session_id current_question = [])
  /\ (log_of self session_id <> [] ->
     get_context_for_question self session_id current_question =
       lit "Previous conversation context:" ++ nl
       ++ concat (map qa_text
            (map question_and_explanation (most_recent 3 (log_of self session_id)))))
  /\ (length (most_recent 3 (log_of self session_id)) <= 3)%nat
  /\ (forall self' (session_id' : str),
        map question_and_explanation (log_of self' session_id')
          = map question_and_explanation (log_of self session_id) ->
        get_context_for_question self' session_id' current_question
          = get_context_for_question self session_id current_question)
  /\ (forall other_question : str,
        get_context_for_question self session_id other_question
          = get_context_for_question self session_id current_question).
Proof.
  rewrite !get_context_for_question_log. split; [by intros ->|]. split.
  { intros Hne. rewrite most_recent_map.
    by destruct (log_of self session_id). }
  split; [apply most_recent_length|]. split.
  - intros self' session_id' Hsame. rewrite get_context_for_question_log, Hsame.
    destruct (log_of self' session_id'), (log_of self session_id); done.
  - intros other_question. by rewrite get_context_for_question_log.
Qed.

(** *** What [add_exchange] stores *)

Lemma results_are_str_insert_nil self (session_id : str) (current : option str) :
  results_are_str self ->
  results_are_str
    {| conversations := <[session_id := []]> (conversations self);
       current_session := current |}.
Proof.
  unfold results_are_str. simpl. intros Hinv.
  apply map_Forall_insert_2; [constructor | done].
Qed.

Lemma results_are_str_append self (session_id : str) (e : Exchange) :
  isinstance_str (result e) = true ->
  results_are_str self ->
  results_are_str
    {| conversations := alter (fun log => log ++ [e]) session_id (conversations self);
       current_session := current_session self |}.
Proof.
  unfold results_are_str. simpl. intros He Hinv i log.
  rewrite lookup_alter. destruct (decide (session_id = i)) as [->|Hne].
  - destruct (conversations self !! i) as [old|] eqn:Hold; simpl; [|done].
    intros [= <-]. apply Forall_app. split; [by apply (Hinv i)|].
    by repeat constructor.
  - apply Hinv.
Qed.

Lemma rendered_is_str (r r' : object (Value := Value)) :
  (if negb (isinstance_str r)
   then match r with
        | Obj v => s ← py_str v; Ok (Str s)
        | Str s => Ok (Str s)
        end
   else Ok r) = Ok r' ->
  exists s, r' = Str s /\ (r = Str s \/ exists v, r = Obj v /\ py_str v = Ok s).
Proof.
  destruct r as [s|v]; simpl.
  - intros [= <-]. exists s. auto.
  - destruct (py_str v) as [s|e] eqn:Hv; simpl; [|done].
    intros [= <-]. exists s. split; [done|]. right. by exists v.
Qed.

Lemma add_exchange_preserves self (session_id question sql_query : str)
    (r : object) (explanation now : str) :
  results_are_str self ->
  results_are_str
    (add_exchange py_str self session_id question sql_query r explanation now).1.
Proof.
  intros Hinv. unfold add_exchange.
  set (self1 := match conversations self !! session_id with
                | None => _ | Some _ => self end).
  assert (results_are_str self1) as Hinv1.
  { subst self1. destruct (conversations self !! session_id); [done|].
    by apply results_are_str_insert_nil. }
  cbv zeta.
  destruct (if negb (isinstance_str r) then _ else _) as [r'|e] eqn:Hr; [|done].
  apply rendered_is_str in Hr as (s & -> & _). simpl.
  by apply results_are_str_append.
Qed.

Lemma add_exchange_stores self (session_id question sql_query : str)
    (r : object) (explanation now : str) self' :
  add_exchange py_str self session_id question sql_query r explanation now
    = (self', Ok ()) ->
  exists s,
    (r = Str s \/ exists v, r = Obj v /\ py_str v = Ok s)
    /\ log_of self' session_id =
         log_of self session_id
         ++ [{| timestamp := now; question := question; sql_query := sql_query;
                result := Str s; explanation := explanation |}].
Proof.
  unfold add_exchange. cbv zeta.
  destruct (if negb (isinstance_str r) then _ else _) as [r'|e] eqn:Hr;
    [|by intros [= _ ?]].
  apply rendered_is_str in Hr as (s & -> & Hs). intros [= <-].
  exists s. split; [done|]. unfold log_of. simpl. rewrite lookup_alter_eq.
  destruct (conversations self !! session_id) as [log|] eqn:Hlog.
  - by rewrite Hlog.
  - simpl. by rewrite lookup_insert_eq.
Qed.

Lemma do_call_preserves self (c : call) :
  results_are_str self -> results_are_str (do_call py_str self c).
Proof.
  intros Hinv. destruct c; simpl; try done.
  - by apply results_are_str_insert_nil.
  - by apply add_exchange_preserves.
Qed.

Lemma calls_preserve (calls : list call) self :
  results_are_str self -> results_are_str (fold_left (do_call py_str) calls self).
Proof.
  revert self. induction calls as [|c calls IH]; intros self Hinv; simpl; [done|].
  by apply IH, do_call_preserves.
Qed.

(** C10. After any sequence of calls on a new memory, every exchange of
    every session has text in its [result] entry; and a call of
    [add_exchange] that returns has appended an exchange whose [result]
    is the result itself when that is text, and [str] of it otherwise. *)
Theorem stored_results_are_str :
  (forall calls : list call, results_are_str (run py_str calls))
  /\ (forall self (session_id question sql_query : str) (r : object)
        (explanation now : str) self',
        add_exchange py_str self session_id question sql_query r explanation now
          = (self', Ok ()) ->
        exists s,
          (r = Str s \/ exists v, r = Obj v /\ py_str v = Ok s)
          /\ log_of self' session_id =
               log_of self session_id
               ++ [{| timestamp := now; question := question;
                      sql_query := sql_query; result := Str s;
                      explanation := explanation |}]).
Proof.
  split.
  - intros calls. apply calls_preserve. unfold results_are_str, init. simpl.
    apply map_Forall_empty.
  - apply add_exchange_stores.
Qed.

(** *** [get_conversation_history] *)

Lemma get_conversation_history_zero self (session_id : str) :
  get_conversation_history self session_id 0 = log_of self session_id.
Proof. rewrite get_conversation_history_log. apply slice_from_zero. Qed.

Lemma get_conversation_history_unknown self (session_id : str) (limit : Z) :
  conversations self !! session_id = None ->
  get_conversation_history self session_id limit = [].
Proof. unfold get_conversation_history. by intros ->. Qed.
End MemoryProofs.

(** C7 at [limit = 0].  [log[-0:]] is [log[0:]], the whole log: with one
    exchange stored, a history of limit 0 holds that exchange, where the
    most recent 0 exchanges are none. *)
Theorem get_conversation_history_limit_zero :
  let py_str := fun _ : Empty_set => Ok [] in
  let self :=
    memory_manager.run py_str
      [memory_manager.AddExchange (lit "s1") (lit "How many students?")
         (lit "SELECT COUNT(*) as total_students FROM students")
         (memory_manager.Str (lit "42")) (lit "There are 42 students.")
         (lit "2024-01-01T00:00:00")] in
  memory_manager.get_conversation_history self (lit "s1") 0
    = [{| memory_manager.timestamp := lit "2024-01-01T00:00:00";
          memory_manager.question := lit "How many students?";
          memory_manager.sql_query :=
            lit "SELECT COUNT(*) as total_students FROM students";
          memory_manager.result := memory_manager.Str (lit "42");
          memory_manager.explanation := lit "There are 42 students." |}]
  /\ most_recent 0 (log_of self (lit "s1")) = []
  /\ (forall (Value : Type) (self : memory_manager.ConversationMemory (Value := Value))
        (session_id : str),
        memory_manager.get_conversation_history self session_id 0
          = log_of self session_id).
Proof.
  cbv zeta. split; [|split].
  - vm_compute. reflexivity.
  - vm_compute. reflexivity.
  - intros Value self session_id. apply get_conversation_history_zero.
Qed.

(** ** The result-formatting step *)

Section FormattingProofs.
Import response_generator.
Context {cell Value : Type}.
Context (to_string : DataFrame (cell := cell) -> str)
        (py_str : Value -> outcome str).

(** C5, as the code has it.  A result with no rows, and also one with
    no columns, formats to "No data found.".  A result with at least
    one column and more than 10 rows formats to the count of its rows
    and the rendering of its first 10 rows; one with at least one
    column and 1 to 10 rows formats to the rendering of all its rows. *)
Theorem results_text_policy (df : DataFrame) :
  (len df = 0%nat ->
     results_text to_string py_str (Frame df) = Ok (lit "No data found."))
  /\ (columns df = [] ->
     results_text to_string py_str (Frame df) = Ok (lit "No data found."))
  /\ (columns df <> [] -> (10 < len df)%nat ->
     results_text to_string py_str (Frame df) =
       Ok (lit "Found " ++ str_of_nat (len df)
           ++ lit " records. Here are the first 10:" ++ nl
           ++ to_string (head 10 df))
     /\ rows (head 10 df) = take 10 (rows df)
     /\ columns (head 10 df) = columns df
     /\ len (head 10 df) = 10%nat)
  /\ (columns df <> [] -> (0 < len df <= 10)%nat ->
     results_text to_string py_str (Frame df) = Ok (to_string df)).
Proof.
  unfold results_text, empty, len, head. simpl.
  split; [by intros -> |]. split.
  { intros ->. simpl. by rewrite orb_true_r. }
  split.
  - intros Hc Hr.
    assert (length (columns df) <> 0%nat) as Hc'
      by (by destruct (columns df)).
    destruct (Nat.eqb_spec (length (rows df)) 0); [lia|].
    destruct (Nat.eqb_spec (length (columns df)) 0); [done|]. simpl.
    destruct (Nat.ltb_spec 10 (length (rows df))); [|lia].
    split; [done|]. split; [done|]. split; [done|].
    rewrite length_take. lia.
  - intros Hc Hr.
    assert (length (columns df) <> 0%nat) as Hc'
      by (by destruct (columns df)).
    destruct (Nat.eqb_spec (length (rows df)) 0); [lia|].
    destruct (Nat.eqb_spec (length (columns df)) 0); [done|]. simpl.
    destruct (Nat.ltb_spec 10 (length (rows df))); [lia|done].
Qed.
End FormattingProofs.

(** C5, as stated, fails on a frame with rows and no columns: such a
    frame is [empty], so with 11 rows it formats to "No data found.",
    which is neither a count of 11 rows nor a rendering of 10 of them. *)
Lemma results_text_no_columns :
  let df : response_generator.DataFrame (cell := Empty_set) :=
    {| response_generator.columns := [];
       response_generator.rows := replicate 11 [] |} in
  response_generator.len df = 11%nat
  /\ forall (Value : Type) (to_string : response_generator.DataFrame -> str)
       (py_str : Value -> outcome str),
       response_generator.results_text to_string py_str (response_generator.Frame df)
         = Ok (lit "No data found.")
       /\ response_generator.results_text to_string py_str (response_generator.Frame df)
         <> Ok (lit "Found " ++ str_of_nat 11
                ++ lit " records. Here are the first 10:" ++ nl
                ++ to_string (response_generator.head 10 df)).
Proof.
  cbv zeta. split; [reflexivity|]. intros Value to_string py_str.
  split; [reflexivity|]. vm_compute. discriminate.
Qed.

(** * Further properties of the code *)

(** ** The query validator *)

Lemma toupper_eq_cases (c d : char) :
  ascii_toupper c = ascii_toupper d ->
  c = d \/ (ascii_isalpha c = true /\ ascii_isalpha d = true).
Proof.
  unfold ascii_toupper, ascii_isalpha.
  destruct (ascii_islower c) eqn:Hc, (ascii_islower d) eqn:Hd;
    rewrite ?orb_true_r, ?orb_false_r.
  - auto.
  - intros <-. right. split; [done|].
    unfold ascii_islower, ascii_isupper in *.
    apply andb_true_iff in Hc as [H1 H2]. apply N.leb_le in H1, H2.
    apply andb_true_iff. split; apply N.leb_le; lia.
  - intros ->. right. split; [|done].
    unfold ascii_islower, ascii_isupper in *.
    apply andb_true_iff in Hd as [H1 H2]. apply N.leb_le in H1, H2.
    apply andb_true_iff. split; apply N.leb_le; lia.
  - auto.
Qed.

Lemma same_case_eqb (c d k : char) :
  ascii_toupper c = ascii_toupper d -> ascii_isalpha k = false ->
  (k =? c) = (k =? d).
Proof.
  intros [->|[Hc Hd]]%toupper_eq_cases Hk; [done|].
  destruct (N.eqb_spec k c) as [Hkc|_], (N.eqb_spec k d) as [Hkd|_];
    subst; congruence.
Qed.

Lemma same_case_isspace {U : UnicodeDB} (c d : char) :
  ascii_toupper c = ascii_toupper d -> py_isspace c = py_isspace d.
Proof.
  intros [->|[Hc Hd]]%toupper_eq_cases; [done|].
  by rewrite !isalpha_not_space.
Qed.

Lemma same_case_toupper {U : UnicodeDB} (c d : char) :
  ascii_toupper c = ascii_toupper d -> py_toupper c = py_toupper d.
Proof.
  intros Hcd. destruct (toupper_eq_cases _ _ Hcd) as [->|[Hc Hd]]; [done|].
  by rewrite !isalpha_toupper, Hcd.
Qed.

Lemma same_up_to_case_startswith (s t p : str) :
  same_up_to_case s t -> Forall (fun k => ascii_isalpha k = false) p ->
  startswith s p = startswith t p.
Proof.
  intros Hst Hp. revert s t Hst.
  induction Hp as [|k p Hk _ IH]; intros s t Hst; [done|].
  destruct Hst as [|c d s t Hcd Hst]; [done|]. simpl.
  by rewrite (same_case_eqb c d k Hcd Hk), (IH _ _ Hst).
Qed.

Lemma same_up_to_case_sub_line_comments (in_match : bool) (s t : str) :
  same_up_to_case s t ->
  same_up_to_case (sub_line_comments in_match s) (sub_line_comments in_match t).
Proof.
  intros Hst. revert in_match.
  induction Hst as [|c d s t Hcd Hst IH]; intros in_match; [constructor|].
  cbn [sub_line_comments].
  rewrite <- !(N.eqb_sym 10), <- !(N.eqb_sym 45).
  rewrite (same_case_eqb c d 10 Hcd), (same_case_eqb c d 45 Hcd) by done.
  rewrite (same_up_to_case_startswith s t [45] Hst) by (by repeat constructor).
  destruct in_match.
  - destruct (10 =? d); [constructor; [done|apply IH] | apply IH].
  - destruct ((45 =? d) && startswith t [45]);
      [apply IH | constructor; [done|apply IH]].
Qed.

Lemma same_up_to_case_rev (s t : str) :
  same_up_to_case s t -> same_up_to_case (rev s) (rev t).
Proof.
  induction 1 as [|c d s t Hcd Hst IH]; simpl; [constructor|].
  apply Forall2_app; [done|]. by repeat constructor.
Qed.

Lemma same_up_to_case_lstrip {U : UnicodeDB} (s t : str) :
  same_up_to_case s t -> same_up_to_case (lstrip s) (lstrip t).
Proof.
  induction 1 as [|c d s t Hcd Hst IH]; simpl; [constructor|].
  rewrite (same_case_isspace c d Hcd).
  destruct (py_isspace d); [done|]. by constructor.
Qed.

Lemma same_up_to_case_strip {U : UnicodeDB} (s t : str) :
  same_up_to_case s t -> same_up_to_case (strip s) (strip t).
Proof.
  intros Hst. unfold strip, rstrip.
  by apply same_up_to_case_rev, same_up_to_case_lstrip, same_up_to_case_rev,
    same_up_to_case_lstrip.
Qed.

Lemma same_up_to_case_upper {U : UnicodeDB} (s t : str) :
  same_up_to_case s t -> upper s = upper t.
Proof.
  unfold upper. induction 1 as [|c d s t Hcd Hst IH]; simpl; [done|].
  by rewrite (same_case_toupper c d Hcd), IH.
Qed.

(** X1. The verdict of the validator does not depend on the case of the
    ASCII letters of the query. *)
Theorem validate_sql_case_insensitive {U : UnicodeDB} (q q' : str) :
  same_up_to_case q q' -> validate_sql q = validate_sql q'.
Proof.
  intros Hqq. unfold validate_sql.
  by rewrite (same_up_to_case_upper _ _
    (same_up_to_case_strip _ _
       (same_up_to_case_sub_line_comments false _ _ Hqq))).
Qed.

Lemma validate_sql_case_insensitive_witness :
  validate_sql (U := ascii_only) (lit "Select Name From Students")
  = validate_sql (U := ascii_only) (lit "sELECT nAME fROM sTUDENTS").
Proof.
  apply (validate_sql_case_insensitive (U := ascii_only)).
  unfold same_up_to_case. repeat constructor.
Defined.

Lemma lstrip_all_space {U : UnicodeDB} (s : str) :
  Forall (fun c => py_isspace c = true) s -> lstrip s = [].
Proof. induction 1 as [|c s Hc _ IH]; simpl; [done|]. by rewrite Hc. Qed.

(** X2. A query that is empty, or in which only white space is left once the
    line comments are removed, is refused. *)
Theorem validate_sql_blank {U : UnicodeDB} (q : str) :
  Forall (fun c => py_isspace c = true) (without_line_comments q) ->
  validate_sql q = false.
Proof.
  intros Hblank. unfold validate_sql. rewrite sub_line_comments_spec.
  unfold strip. by rewrite (lstrip_all_space _ Hblank).
Qed.

Lemma validate_sql_blank_witness :
  validate_sql (U := ascii_only) (lit "  -- drop table students") = false.
Proof.
  apply (validate_sql_blank (U := ascii_only)). vm_compute. repeat constructor.
Defined.

Lemma sub_line_comments_in_comment (comment rest : str) :
  Forall (fun c => c <> 10) comment ->
  sub_line_comments true (comment ++ rest) = sub_line_comments true rest.
Proof.
  induction 1 as [|c comment Hc _ IH]; [done|]. cbn [app sub_line_comments].
  by destruct (N.eqb_spec c 10).
Qed.

Lemma sub_line_comments_opens (in_match : bool) (before : str) :
  exists kept, forall rest,
    sub_line_comments in_match (before ++ 45 :: 45 :: rest)
      = kept ++ sub_line_comments true rest.
Proof.
  revert in_match. induction before as [|c before IH]; intros in_match.
  - exists []. intros rest. by destruct in_match.
  - destruct (IH true) as (kt & Ht), (IH false) as (kf & Hf).
    cbn [app sub_line_comments]. destruct in_match.
    + destruct (c =? 10); [exists (c :: kf) | exists kt]; intros rest;
        by rewrite ?Hf, ?Ht.
    + assert (forall rest, startswith (before ++ 45 :: 45 :: rest) [45]
                           = startswith (before ++ [45]) [45]) as Hs
        by (intros rest; by destruct before).
      destruct ((c =? 45) && startswith (before ++ [45]) [45]) eqn:Hc;
        [exists kt | exists (c :: kf)]; intros rest;
        by rewrite Hs, Hc, ?Hf, ?Ht.
Qed.

(** X3. What a line comment says has no effect on the verdict: two queries
    that differ only in the text that follows a [--] on its line are both
    accepted or both refused. *)
Theorem validate_sql_ignores_comments {U : UnicodeDB}
    (before comment comment' rest : str) :
  Forall (fun c => c <> 10) comment -> Forall (fun c => c <> 10) comment' ->
  validate_sql (before ++ lit "--" ++ comment ++ rest)
  = validate_sql (before ++ lit "--" ++ comment' ++ rest).
Proof.
  intros Hc Hc'. unfold validate_sql.
  destruct (sub_line_comments_opens false before) as (kept & Hk).
  change (lit "--" ++ comment ++ rest) with (45 :: 45 :: (comment ++ rest)).
  change (lit "--" ++ comment' ++ rest) with (45 :: 45 :: (comment' ++ rest)).
  by rewrite !Hk, !sub_line_comments_in_comment.
Qed.

Lemma validate_sql_ignores_comments_witness :
  validate_sql (U := ascii_only)
    (lit "SELECT 1 " ++ lit "--" ++ lit " drop everything" ++ nl ++ lit "FROM t")
  = validate_sql (U := ascii_only)
    (lit "SELECT 1 " ++ lit "--" ++ lit " harmless" ++ nl ++ lit "FROM t").
Proof.
  apply (validate_sql_ignores_comments (U := ascii_only)
           (lit "SELECT 1 ") (lit " drop everything") (lit " harmless")
           (nl ++ lit "FROM t")).
  - vm_compute. repeat constructor; discriminate.
  - vm_compute. repeat constructor; discriminate.
Defined.

(** ** The query generator *)

Lemma split_aux_cons (sep : str) (skip : nat) (cur s : str) :
  exists piece more, split_aux sep skip cur s = piece :: more.
Proof.
  revert skip cur. induction s as [|c s IH]; intros skip cur; simpl; [by eauto|].
  destruct skip; [|by apply IH].
  destruct (startswith (c :: s) sep); [by eauto | by apply IH].
Qed.

Lemma split_aux_two (sep : str) (cur s : str) :
  sep <> [] -> contains sep s = true ->
  exists piece piece' more, split_aux sep 0 cur s = piece :: piece' :: more.
Proof.
  intros Hsep. revert cur. induction s as [|c s IH]; intros cur; simpl.
  - destruct sep; [done|]. discriminate.
  - destruct (startswith (c :: s) sep); simpl.
    + intros _. destruct (split_aux_cons sep (length sep - 1) [] s) as (p & m & ->).
      by eauto.
    + apply IH.
Qed.

Lemma getitem_0_split (sep s : str) : exists piece, getitem (split sep s) 0 = Ok piece.
Proof.
  unfold split. destruct (split_aux_cons sep 0 [] s) as (p & m & ->). by eauto.
Qed.

Lemma getitem_1_split (sep s : str) :
  sep <> [] -> contains sep s = true ->
  exists piece, getitem (split sep s) 1 = Ok piece.
Proof.
  intros Hsep Hc. unfold split.
  destruct (split_aux_two sep [] s Hsep Hc) as (p & p' & m & ->). by eauto.
Qed.

(** X4. The fence-stripping step never raises: where the code takes piece 1
    of a split, the test before it has found the separator. *)
Theorem clean_response_returns {U : UnicodeDB} (result : str) :
  exists cleaned_result, clean_response result = Ok cleaned_result.
Proof.
  unfold clean_response. cbv zeta.
  destruct (contains (lit "```json") (strip result)) eqn:Hj.
  - destruct (getitem_1_split (lit "```json") (strip result)) as (after & ->);
      [done|done|]. cbn. apply getitem_0_split.
  - destruct (contains (lit "```") (strip result)) eqn:Hf; [|by eauto].
    destruct (getitem_1_split (lit "```") (strip result)) as (after & ->);
      [done|done|]. cbn. apply getitem_0_split.
Qed.

Lemma split_aux_skip (sep passed cur s : str) :
  split_aux sep (length passed) cur (passed ++ s) = split_aux sep 0 cur s.
Proof. induction passed as [|c passed IH]; [done|]. apply IH. Qed.

Lemma startswith_app (sep s : str) : startswith (sep ++ s) sep = true.
Proof. apply startswith_prefix. by exists s. Qed.

Lemma startswith_app_app (a s p : str) :
  startswith (a ++ s) (a ++ p) = startswith s p.
Proof.
  induction a as [|c a IH]; [done|]. cbn [app startswith].
  by rewrite N.eqb_refl, IH.
Qed.

Lemma split_aux_sep (sep cur s : str) :
  sep <> [] ->
  split_aux sep 0 cur (sep ++ s) = rev cur :: split_aux sep 0 [] s.
Proof.
  intros Hsep. destruct sep as [|c sep]; [done|].
  change ((c :: sep) ++ s) with (c :: (sep ++ s)). cbn [split_aux].
  change (c :: sep ++ s) with ((c :: sep) ++ s). rewrite startswith_app.
  f_equal. replace (length (c :: sep) - 1)%nat with (length sep) by (simpl; lia).
  apply split_aux_skip.
Qed.

Lemma split_aux_plain (k : char) (sep cur plain s : str) :
  Forall (fun c => c <> k) plain ->
  split_aux (k :: sep) 0 cur (plain ++ s) = split_aux (k :: sep) 0 (rev plain ++ cur) s.
Proof.
  intros Hp. revert cur. induction Hp as [|c plain Hc _ IH]; intros cur; [done|].
  cbn [app split_aux startswith]. destruct (N.eqb_spec k c); [congruence|].
  cbn [andb]. rewrite IH. cbn [rev]. by rewrite <- app_assoc.
Qed.

Lemma split_plain (k : char) (sep plain : str) :
  Forall (fun c => c <> k) plain -> split (k :: sep) plain = [plain].
Proof.
  intros Hp. unfold split. rewrite <- (app_nil_r plain) at 1.
  rewrite split_aux_plain by done. cbn. by rewrite app_nil_r, rev_involutive.
Qed.

Lemma split_plain_sep (k : char) (sep plain s : str) :
  Forall (fun c => c <> k) plain ->
  split (k :: sep) (plain ++ (k :: sep) ++ s) = plain :: split (k :: sep) s.
Proof.
  intros Hp. unfold split. rewrite split_aux_plain by done.
  rewrite split_aux_sep by done. by rewrite app_nil_r, rev_involutive.
Qed.

(** X5. The answer inside a [```json] fence is what is parsed: when the
    stripped output of the model is a prologue, the opening fence, a body,
    the closing fence and an epilogue, none of the three holding a
    backtick, the cleaned text is the body. *)
Theorem clean_response_fenced {U : UnicodeDB} (result prologue body epilogue : str) :
  Forall (fun c => c <> 96) prologue ->
  Forall (fun c => c <> 96) body ->
  Forall (fun c => c <> 96) epilogue ->
  strip result = prologue ++ lit "```json" ++ body ++ lit "```" ++ epilogue ->
  clean_response result = Ok body.
Proof.
  intros Hp Hb He Hs. unfold clean_response. cbv zeta. rewrite Hs.
  assert (contains (lit "```json") (prologue ++ lit "```json" ++ body ++ lit "```" ++ epilogue)
          = true) as -> by (apply contains_substring; by eexists _, _).
  change (lit "```json") with (96 :: lit "``json").
  rewrite split_plain_sep by done. cbn [getitem lookup list_lookup mbind outcome_bind].
  assert (exists more rest,
             split (96 :: lit "``json") (body ++ lit "```" ++ epilogue)
               = (body ++ more) :: rest
             /\ (more = [] \/ more = lit "```" ++ epilogue)) as (more & rest & -> & Hm).
  { destruct (startswith epilogue (lit "json")) eqn:Hj.
    - apply startswith_prefix in Hj as [tail ->].
      exists [], (split (96 :: lit "``json") tail). split; [|by left].
      change (lit "```" ++ lit "json" ++ tail) with ((96 :: lit "``json") ++ tail).
      rewrite split_plain_sep by done. by rewrite app_nil_r.
    - exists (lit "```" ++ epilogue), []. split; [|by right].
      unfold split. rewrite split_aux_plain by done.
      change (lit "```" ++ epilogue) with (96 :: 96 :: 96 :: epilogue).
      cbn [split_aux]. 
      assert (startswith (96 :: 96 :: 96 :: epilogue) (96 :: lit "``json") = false) as ->.
      { change (96 :: 96 :: 96 :: epilogue) with (lit "```" ++ epilogue).
        change (96 :: lit "``json") with (lit "```" ++ lit "json").
        by rewrite startswith_app_app. }
      assert (startswith (96 :: 96 :: epilogue) (96 :: lit "``json") = false) as ->.
      { apply not_true_is_false. intros [tail Ht]%startswith_prefix.
        destruct epilogue as [|e epilogue]; [done|].
        apply Forall_cons in He as [He _]. vm_compute in Ht. congruence. }
      assert (startswith (96 :: epilogue) (96 :: lit "``json") = false) as ->.
      { apply not_true_is_false. intros [tail Ht]%startswith_prefix.
        destruct epilogue as [|e epilogue]; [done|].
        apply Forall_cons in He as [He _]. vm_compute in Ht. congruence. }
      change (96 :: 96 :: 96 :: rev body ++ []) with (rev (lit "```") ++ rev body ++ []).
      rewrite <- (app_nil_r epilogue) at 1.
      rewrite split_aux_plain by done. cbn [split_aux].
      rewrite app_nil_r, !rev_app_distr, !rev_involutive.
      by rewrite <- !app_assoc. }
  cbn [getitem lookup list_lookup mbind outcome_bind].
  change (lit "```") with (96 :: lit "``").
  destruct Hm as [-> | ->].
  - rewrite app_nil_r, split_plain by done. done.
  - rewrite split_plain_sep by done. done.
Qed.

Lemma clean_response_fenced_witness :
  clean_response (U := ascii_only)
    (lit "Here you go: ```json{ }``` Hope it helps.  ") = Ok (lit "{ }").
Proof.
  apply (clean_response_fenced (U := ascii_only) _
           (lit "Here you go: ") (lit "{ }") (lit " Hope it helps.")).
  - vm_compute. repeat constructor; discriminate.
  - vm_compute. repeat constructor; discriminate.
  - vm_compute. repeat constructor; discriminate.
  - reflexivity.
Defined.

(** Without a fence the cleaned text is the stripped output itself. *)
Lemma clean_response_unfenced {U : UnicodeDB} (result : str) :
  ~ substring (lit "```") (strip result) ->
  clean_response result = Ok (strip result).
Proof.
  intros Hno. unfold clean_response. cbv zeta.
  assert (contains (lit "```json") (strip result) = false) as ->.
  { apply contains_false. intros Hj. apply Hno.
    apply (substring_trans _ (lit "```json")); [|done]. by exists [], (lit "json"). }
  by apply contains_false in Hno as ->.
Qed.

Lemma clean_response_unfenced_witness :
  clean_response (U := ascii_only) (lit "  { }  ") = Ok (lit "{ }").
Proof.
  apply (clean_response_unfenced (U := ascii_only) (lit "  { }  ")).
  intros Hc%contains_substring. vm_compute in Hc. discriminate.
Defined.




(** X8. The error text reaches only the explanation: the query and the
    confidence of the fallback are the same for every error text, and the
    confidence is 0.0 exactly when the query is the error-surfacing one. *)
Theorem create_fallback_query_error_text {U : UnicodeDB} (question error error' : str) :
  query (create_fallback_query question error)
    = query (create_fallback_query question error')
  /\ confidence (create_fallback_query question error)
    = confidence (create_fallback_query question error')
  /\ (confidence (create_fallback_query question error) = f0_0 <->
      query (create_fallback_query question error)
        = lit "SELECT 'Error: Could not generate query' as error_message").
Proof.
  unfold create_fallback_query.
  repeat match goal with
  | |- context [if ?b then _ else _] => destruct b
  end; simpl; (split; [done|]); (split; [done|]); split; intros Heq; try done.
  all: try (vm_compute in Heq; discriminate).
  all: exfalso; apply (f_equal (fun x => PrimFloat.eqb x f0_0)) in Heq;
    vm_compute in Heq; discriminate.
Qed.

(** ** The conversation memory *)

Section MemoryFurther.
Import memory_manager.
Context {Value : Type} (py_str : Value -> outcome str).
Implicit Types (self : ConversationMemory (Value := Value)).

Lemma add_exchange_cases self (session_id question sql_query : str)
    (r : object) (explanation now : str) :
  let registered :=
    {| conversations :=
         match conversations self !! session_id with
         | None => <[session_id := []]> (conversations self)
         | Some _ => conversations self
         end;
       current_session := current_session self |} in
  (exists e, (exists v, r = Obj v /\ py_str v = Raise e)
     /\ add_exchange py_str self session_id question sql_query r explanation now
        = (registered, Raise e))
  \/ (exists s, (r = Str s \/ exists v, r = Obj v /\ py_str v = Ok s)
     /\ add_exchange py_str self session_id question sql_query r explanation now
        = ({| conversations :=
                alter (fun log => log ++
                         [{| timestamp := now; question := question;
                             sql_query := sql_query; result := Str s;
                             explanation := explanation |}])
                  session_id (conversations registered);
              current_session := current_session self |}, Ok ())).
Proof.
  cbv zeta. unfold add_exchange.
  destruct r as [s|v]; cbn.
  - right. exists s. split; [by left|].
    by destruct (conversations self !! session_id).
  - destruct (py_str v) as [s|e] eqn:Hv; cbn.
    + right. exists s. split; [right; by eauto|].
      by destruct (conversations self !! session_id).
    + left. exists e. split; [by eauto|].
      destruct (conversations self !! session_id) eqn:Hl; [|done].
      by destruct self.
Qed.

(** X9. [add_exchange] touches one session only: whether it returns or
    raises, the log of every other session and the current session stay
    as they were. *)
Theorem add_exchange_other_sessions self (session_id question sql_query : str)
    (r : object) (explanation now : str) :
  let self' :=
    (add_exchange py_str self session_id question sql_query r explanation now).1 in
  current_session self' = current_session self
  /\ (forall other : str, other <> session_id ->
        conversations self' !! other = conversations self !! other
        /\ (forall limit : Z,
              get_conversation_history self' other limit
              = get_conversation_history self other limit)
        /\ (forall current_question : str,
              get_context_for_question self' other current_question
              = get_context_for_question self other current_question)).
Proof.
  cbv zeta.
  assert (forall other : str, other <> session_id ->
            conversations
              (add_exchange py_str self session_id question sql_query r explanation now).1
              !! other = conversations self !! other) as Hlook.
  { intros other Hne.
    destruct (add_exchange_cases self session_id question sql_query r explanation now)
      as [(e & _ & ->) | (s & _ & ->)]; cbn.
    - destruct (conversations self !! session_id); [done|].
      by rewrite lookup_insert_ne.
    - rewrite lookup_alter_ne by done.
      destruct (conversations self !! session_id); [done|].
      by rewrite lookup_insert_ne. }
  split.
  - destruct (add_exchange_cases self session_id question sql_query r explanation now)
      as [(e & _ & ->) | (s & _ & ->)]; done.
  - intros other Hne. split; [by apply Hlook|].
    unfold get_context_for_question, get_conversation_history.
    rewrite (Hlook other Hne). by split.
Qed.

Lemma add_exchange_raise_keeps_logs self (session_id question sql_query : str)
    (v : Value) (explanation now : str) (e : exn) :
  py_str v = Raise e ->
  let after :=
    add_exchange py_str self session_id question sql_query (Obj v) explanation now in
  after.2 = Raise e
  /\ (forall any : str, log_of after.1 any = log_of self any)
  /\ is_Some (conversations after.1 !! session_id).
Proof.
  intros Hv. cbv zeta.
  destruct (add_exchange_cases self session_id question sql_query (Obj v) explanation now)
    as [(e' & (v' & [= <-] & Hv') & ->) | (s & [[=] | (v' & [= <-] & Hv')] & _)];
    [|congruence].
  rewrite Hv in Hv'. injection Hv' as <-. cbn. split; [done|]. split.
  - intros any. unfold log_of. cbn.
    destruct (conversations self !! session_id) eqn:Hl; [done|].
    destruct (decide (session_id = any)) as [<-|Hne].
    + by rewrite lookup_insert_eq, Hl.
    + by rewrite lookup_insert_ne.
  - destruct (conversations self !! session_id) eqn:Hl; [by rewrite Hl|].
    by rewrite lookup_insert_eq.
Qed.

(** X10. When [str(result)] raises, [add_exchange] raises the same exception
    and stores no exchange: every log reads as before, and the session is
    known afterwards, since its log is created first. *)
Theorem add_exchange_str_raises self (session_id question sql_query : str)
    (v : Value) (explanation now : str) (e : exn) :
  py_str v = Raise e ->
  let after :=
    add_exchange py_str self session_id question sql_query (Obj v) explanation now in
  after.2 = Raise e
  /\ (forall any : str, log_of after.1 any = log_of self any)
  /\ is_Some (conversations after.1 !! session_id).
Proof. apply add_exchange_raise_keeps_logs. Qed.

(** X11. [create_session] returns the identifier it drew, makes it the current
    session and gives it an empty log, also when a session of that
    identifier existed, whose exchanges are then gone; the other sessions
    are left alone. *)
Theorem create_session_spec self (uuid4 : str) :
  let after := create_session self uuid4 in
  after.2 = uuid4
  /\ current_session after.1 = Some uuid4
  /\ conversations after.1 !! uuid4 = Some []
  /\ (forall current_question : str,
        get_context_for_question after.1 uuid4 current_question = [])
  /\ (forall other : str, other <> uuid4 ->
        conversations after.1 !! other = conversations self !! other).
Proof.
  cbv zeta. unfold create_session. cbn. split; [done|]. split; [done|].
  split; [by rewrite lookup_insert_eq|]. split.
  - intros current_question.
    unfold get_context_for_question, get_conversation_history. cbn.
    by rewrite lookup_insert_eq.
  - intros other Hne. by rewrite lookup_insert_ne.
Qed.

(** X12. For a positive limit the history is the most recent [limit] exchanges
    of the session: a suffix of its log, of at most [limit] entries, and
    the whole log when that is not longer than [limit]. *)
Theorem get_conversation_history_recent self (session_id : str) (limit : Z) :
  (0 < limit)%Z ->
  get_conversation_history self session_id limit
    = most_recent (Z.to_nat limit) (log_of self session_id)
  /\ get_conversation_history self session_id limit `suffix_of` log_of self session_id
  /\ (Z.of_nat (length (get_conversation_history self session_id limit)) <= limit)%Z
  /\ ((Z.of_nat (length (log_of self session_id)) <= limit)%Z ->
      get_conversation_history self session_id limit = log_of self session_id).
Proof.
  intros Hl. rewrite get_conversation_history_positive by done.
  split; [done|]. split; [apply suffix_drop|]. split.
  - pose proof (most_recent_length (log_of self session_id) (Z.to_nat limit)). lia.
  - intros Hlen. unfold most_recent.
    replace (length (log_of self session_id) - Z.to_nat limit)%nat with 0%nat by lia.
    done.
Qed.

(** X13. For a negative limit the history is the log without its oldest
    [-limit] exchanges. *)
Theorem get_conversation_history_negative self (session_id : str) (limit : Z) :
  (limit < 0)%Z ->
  get_conversation_history self session_id limit
    = drop (Z.to_nat (- limit)) (log_of self session_id).
Proof.
  intros Hl. rewrite get_conversation_history_log. unfold slice_from.
  destruct (Z.ltb_spec (- limit) 0); [lia|].
  destruct (Z.min_spec (- limit) (Z.of_nat (length (log_of self session_id))))
    as [[_ ->] | [Hge ->]]; [done|].
  rewrite Nat2Z.id, drop_all. symmetry. apply drop_ge. lia.
Qed.

Lemma most_recent_snoc {A} (l : list A) (x : A) (n : nat) :
  most_recent (S n) (l ++ [x]) = most_recent n l ++ [x].
Proof.
  unfold most_recent. rewrite length_app. simpl.
  replace (length l + 1 - S n)%nat with (length l - n)%nat by lia.
  rewrite drop_app_le by lia. done.
Qed.

(** X14. What [add_exchange] stored is what the next reads see: the history
    of the session, for any positive limit, ends with the new exchange,
    and the context text ends with its question and explanation. *)
Theorem add_exchange_then_read self (session_id question sql_query : str)
    (r : object) (explanation now : str) self' (limit : Z) (current_question : str) :
  add_exchange py_str self session_id question sql_query r explanation now
    = (self', Ok ()) ->
  (0 < limit)%Z ->
  exists s,
    get_conversation_history self' session_id limit
      = most_recent (Z.to_nat limit - 1) (log_of self session_id)
        ++ [{| timestamp := now; question := question; sql_query := sql_query;
               result := Str s; explanation := explanation |}]
    /\ exists earlier,
         get_context_for_question self' session_id current_question
           = earlier ++ qa_text (question, explanation).
Proof.
  intros Hadd Hl.
  destruct (add_exchange_stores py_str _ _ _ _ _ _ _ _ Hadd) as (s & _ & Hlog).
  exists s. split.
  - rewrite get_conversation_history_positive, Hlog by done.
    replace (Z.to_nat limit) with (S (Z.to_nat limit - 1)) by lia.
    rewrite most_recent_snoc. do 2 f_equal. lia.
  - rewrite get_context_for_question_log, Hlog.
    destruct (log_of self session_id ++ _) as [|e l] eqn:Heq;
      [by destruct (log_of self session_id)|].
    rewrite <- Heq. rewrite map_app. change 3%nat with (S 2).
    cbn [map]. rewrite most_recent_snoc, map_app, concat_app. cbn [map concat].
    rewrite app_nil_r.
    eexists. rewrite !app_assoc. reflexivity.
Qed.
End MemoryFurther.

Lemma add_exchange_str_raises_witness :
  (memory_manager.add_exchange (fun _ : unit => Raise ValueError) memory_manager.init
     (lit "s1") (lit "q") (lit "SELECT 1") (memory_manager.Obj ()) (lit "a")
     (lit "2024-01-01T00:00:00")).2 = Raise ValueError.
Proof.
  refine (proj1 (add_exchange_str_raises (fun _ : unit => Raise ValueError)
            memory_manager.init (lit "s1") (lit "q") (lit "SELECT 1") ()
            (lit "a") (lit "2024-01-01T00:00:00") ValueError _)).
  reflexivity.
Defined.

Lemma get_conversation_history_recent_witness :
  let self :=
    memory_manager.run (fun _ : Empty_set => Ok [])
      [memory_manager.AddExchange (lit "s1") (lit "q1") (lit "SELECT 1")
         (memory_manager.Str (lit "1")) (lit "a1") (lit "t1");
       memory_manager.AddExchange (lit "s1") (lit "q2") (lit "SELECT 2")
         (memory_manager.Str (lit "2")) (lit "a2") (lit "t2")] in
  memory_manager.get_conversation_history self (lit "s1") 1
    = most_recent 1 (log_of self (lit "s1")).
Proof.
  cbv zeta. refine (proj1 (get_conversation_history_recent _ _ 1 _)). lia.
Defined.

Lemma get_conversation_history_negative_witness :
  let self :=
    memory_manager.run (fun _ : Empty_set => Ok [])
      [memory_manager.AddExchange (lit "s1") (lit "q1") (lit "SELECT 1")
         (memory_manager.Str (lit "1")) (lit "a1") (lit "t1");
       memory_manager.AddExchange (lit "s1") (lit "q2") (lit "SELECT 2")
         (memory_manager.Str (lit "2")) (lit "a2") (lit "t2")] in
  memory_manager.get_conversation_history self (lit "s1") (-1)
    = drop 1 (log_of self (lit "s1")).
Proof.
  cbv zeta. refine (get_conversation_history_negative _ _ (-1) _). lia.
Defined.

Lemma add_exchange_then_read_witness :
  exists s,
    memory_manager.get_conversation_history
      (memory_manager.add_exchange (fun _ : Empty_set => Ok []) memory_manager.init
         (lit "s1") (lit "q1") (lit "SELECT 1") (memory_manager.Str (lit "1"))
         (lit "a1") (lit "t1")).1 (lit "s1") 10
    = [{| memory_manager.timestamp := lit "t1"; memory_manager.question := lit "q1";
          memory_manager.sql_query := lit "SELECT 1";
          memory_manager.result := memory_manager.Str s;
          memory_manager.explanation := lit "a1" |}].
Proof.
  destruct (add_exchange_then_read (fun _ : Empty_set => Ok []) memory_manager.init
              (lit "s1") (lit "q1") (lit "SELECT 1") (memory_manager.Str (lit "1"))
              (lit "a1") (lit "t1") _ 10 [] eq_refl) as (s & Hs & _); [lia|].
  exists s. exact Hs.
Defined.

(** ** The response generator *)

Section ResponseFurther.
Import response_generator.
Context {cell Value : Type}.
Context (to_string : DataFrame (cell := cell) -> str) (py_str : Value -> outcome str).
Context (prompt_format : str -> str -> str -> str -> str).
Context (llm_invoke : str -> outcome str).

(** X16. When the model fails with an [Exception], the answer is the sentence
    that repeats the question and the formatted results; when it answers,
    the answer is its content. *)
Theorem generate_response_fallback (question sql_query : str)
    (results : query_results) (context text : str) :
  results_text to_string py_str results = Ok text ->
  (forall content,
     llm_invoke (prompt_format question sql_query text context) = Ok content ->
     generate_response to_string py_str prompt_format llm_invoke
       question sql_query results context = Ok content)
  /\ (forall e,
     llm_invoke (prompt_format question sql_query text context) = Raise e ->
     exn_cls e = cls_Exception ->
     generate_response to_string py_str prompt_format llm_invoke
       question sql_query results context
     = Ok (lit "I found some results for your question '" ++ question
           ++ lit "'. Here's what I discovered: " ++ text)).
Proof.
  intros Htext. unfold generate_response. rewrite Htext. cbn. split.
  - by intros content ->.
  - intros e -> Hcls. cbn. by rewrite Hcls.
Qed.
End ResponseFurther.

Lemma generate_response_fallback_witness :
  response_generator.generate_response (cell := Empty_set) (Value := Empty_set)
    (fun _ => lit "rows") (fun v => match v with end)
    (fun question _ results _ => question ++ results)
    (fun _ => Raise (Exn cls_Exception (lit "quota exceeded")))
    (lit "How many?") (lit "SELECT 1")
    (response_generator.Frame
       {| response_generator.columns := [lit "n"]; response_generator.rows := [] |})
    []
  = Ok (lit "I found some results for your question '" ++ lit "How many?"
        ++ lit "'. Here's what I discovered: " ++ lit "No data found.").
Proof.
  refine (proj2 (generate_response_fallback (cell := Empty_set) (Value := Empty_set)
            (fun _ => lit "rows") (fun v => match v with end)
            (fun question _ results _ => question ++ results)
            (fun _ => Raise (Exn cls_Exception (lit "quota exceeded")))
            (lit "How many?") (lit "SELECT 1") _ [] (lit "No data found.") _)
            (Exn cls_Exception (lit "quota exceeded")) _ _); reflexivity.
Defined.

(** ** The pipeline of [process_question] *)

Section ProcessQuestionProofs.
Import main.
Context {U : UnicodeDB} {L : Libraries}.
Context {cell Value datetime : Type}.
Context (to_string df_str : response_generator.DataFrame (cell := cell) -> str).
Context (py_str : Value -> outcome str).
Context (prompt_format : str -> str -> str -> str -> str).
Context (llm_invoke : str -> outcome str).
Context (execute_query :
  str -> outcome (response_generator.query_results (cell := cell) (Value := Value))).

Local Abbreviation process_question_try :=
  (process_question_try (datetime := datetime) to_string df_str py_str prompt_format
     llm_invoke execute_query).
Local Abbreviation process_question :=
  (process_question (datetime := datetime) to_string df_str py_str prompt_format
     llm_invoke execute_query).
Implicit Types (st : session_state (cell := cell) (Value := Value) (datetime := datetime)).

Lemma process_question_executed st (question now_iso : str) (now : datetime) :
  executed (process_question st question now_iso now).1
    = executed (process_question_try st question now_iso now).1.
Proof.
  unfold main.process_question.
  destruct (process_question_try st question now_iso now) as [st' [r|e]]; [done|].
  destruct (exn_cls e); [|done]. cbn. by destruct (conversation_history st').
Qed.

Lemma process_question_memory st (question now_iso : str) (now : datetime) :
  memory (process_question st question now_iso now).1
    = memory (process_question_try st question now_iso now).1.
Proof.
  unfold main.process_question.
  destruct (process_question_try st question now_iso now) as [st' [r|e]]; [done|].
  destruct (exn_cls e); [|done]. cbn. by destruct (conversation_history st').
Qed.

(** X17. [process_question] sends at most one statement to the database, and
    only one that [validate_sql] has accepted. *)
Theorem process_question_executes_validated st (question now_iso : str)
    (now : datetime) :
  let st' := (process_question st question now_iso now).1 in
  executed st' = executed st
  \/ exists q, executed st' = executed st ++ [q] /\ validate_sql q = true.
Proof.
  cbv zeta. rewrite process_question_executed. unfold main.process_question_try.
  destruct (generate_sql (sql_generator st) question) as [sql_result|e]; [|by left].
  destruct (validate_sql (query sql_result)) eqn:Hvalid; cbn; [|by left].
  right. exists (query sql_result). split; [|done].
  destruct (execute_query (query sql_result)) as [results|e]; [|done].
  destruct (response_generator.generate_response _ _ _ _ _ _ _ _) as [resp|e]; [|done].
  cbn. destruct (memory_manager.add_exchange _ _ _ _ _ _ _ _).2; [|done].
  cbn. by destruct (conversation_history st).
Qed.

(** X18. A query that [validate_sql] refuses is not executed: the reply asks
    to rephrase and the session state is left as it was. *)
Theorem process_question_refuses st (question now_iso : str) (now : datetime)
    (sql_result : SQLQuery) :
  generate_sql (sql_generator st) question = Ok sql_result ->
  validate_sql (query sql_result) = false ->
  process_question st question now_iso now
  = (st, Ok {| response := lit "I apologize, but I couldn't generate a safe query for your question. Could you please rephrase it?";
               error := true |}).
Proof.
  intros Hgen Hvalid. unfold main.process_question, main.process_question_try.
  by rewrite Hgen, Hvalid.
Qed.

(** X20. When every step succeeds, the reply carries the response, the
    statement has been executed, the memory of the session has one more
    exchange, which holds the question, the statement, [str] of the
    results and the response as its explanation, and the history has one
    more entry. *)
Theorem process_question_success st (question now_iso : str) (now : datetime)
    (sql_result : SQLQuery) results (response rendered : str)
    (h : list history_entry) :
  generate_sql (sql_generator st) question = Ok sql_result ->
  validate_sql (query sql_result) = true ->
  execute_query (query sql_result) = Ok results ->
  response_generator.generate_response to_string py_str prompt_format llm_invoke
    question (query sql_result) results
    (memory_manager.get_context_for_question (memory st) (session_id st) question)
    = Ok response ->
  str_results df_str py_str results = Ok rendered ->
  conversation_history st = Some h ->
  let after := process_question st question now_iso now in
  after.2 = Ok {| main.response := response; error := false |}
  /\ executed after.1 = executed st ++ [query sql_result]
  /\ log_of (memory after.1) (session_id st)
     = log_of (memory st) (session_id st)
       ++ [{| memory_manager.timestamp := now_iso;
              memory_manager.question := question;
              memory_manager.sql_query := query sql_result;
              memory_manager.result := memory_manager.Str rendered;
              memory_manager.explanation := response |}]
  /\ conversation_history after.1
     = Some (h ++ [{| entry_timestamp := now; entry_question := question;
                      entry_response := response;
                      entry_sql_query := query sql_result;
                      entry_results := Some results;
                      entry_confidence := confidence sql_result;
                      entry_error := false |}]).
Proof.
  intros Hgen Hvalid Hexec Hresp Hstr Hh. cbv zeta.
  unfold main.process_question, main.process_question_try.
  rewrite Hgen, Hvalid. cbn. rewrite Hexec, Hresp.
  destruct (add_exchange_cases (str_results df_str py_str) (memory st) (session_id st)
              question (query sql_result) (memory_manager.Obj results) response now_iso)
    as [(e & (v & [= <-] & Hv) & Hadd) | (s & [[=] | (v & [= <-] & Hv)] & Hadd)];
    [congruence|].
  assert (s = rendered) as -> by congruence.
  destruct (add_exchange_stores (str_results df_str py_str) _ _ _ _ _ _ _ _ Hadd)
    as (s' & [[=] | (v & [= <-] & Hv')] & Hlog).
  assert (s' = rendered) as -> by congruence.
  cbn -[memory_manager.add_exchange]. rewrite Hadd.
  cbn -[memory_manager.add_exchange]. rewrite Hh.
  cbn -[memory_manager.add_exchange]. by rewrite <- Hlog.
Qed.

(** X21. With the conversation history in place, the memory and the reply
    agree: a reply that reports an error has left every log as it was. *)
Theorem process_question_error_keeps_memory st (question now_iso : str)
    (now : datetime) (h : list history_entry) (r : reply) :
  conversation_history st = Some h ->
  (process_question st question now_iso now).2 = Ok r ->
  error r = true ->
  forall any : str,
    log_of (memory (process_question st question now_iso now).1) any
    = log_of (memory st) any.
Proof.
  intros Hh Hr Herr any. rewrite process_question_memory.
  revert Hr. unfold main.process_question, main.process_question_try.
  destruct (generate_sql (sql_generator st) question) as [sql_result|e]; [|done].
  destruct (validate_sql (query sql_result)); cbn; [|done].
  destruct (execute_query (query sql_result)) as [results|e]; [|done].
  destruct (response_generator.generate_response _ _ _ _ _ _ _ _) as [resp|e];
    [|done].
  cbn.
  destruct (add_exchange_cases (str_results df_str py_str) (memory st) (session_id st)
              question (query sql_result) (memory_manager.Obj results) resp now_iso)
    as [(e & (v & [= <-] & Hv) & Hadd) | (s & _ & Hadd)].
  - intros _. 
    pose proof (add_exchange_raise_keeps_logs (str_results df_str py_str) (memory st)
                  (session_id st) question (query sql_result) results resp now_iso e Hv)
      as (_ & Hlogs & _).
    cbn -[memory_manager.add_exchange] in *. rewrite Hadd in *. cbn. apply Hlogs.
  - cbn -[memory_manager.add_exchange]. rewrite Hadd.
    cbn -[memory_manager.add_exchange]. rewrite Hh. cbn. intros [= <-]. done.
Qed.
End ProcessQuestionProofs.

Section ProcessQuestionScenario.
Import main.
Context {U : UnicodeDB} {L : Libraries}.
Context {cell Value datetime : Type}.
Context (to_string df_str : response_generator.DataFrame (cell := cell) -> str).
Context (py_str : Value -> outcome str).
Context (prompt_format : str -> str -> str -> str -> str).
Context (llm_invoke : str -> outcome str).
Context (execute_query :
  str -> outcome (response_generator.query_results (cell := cell) (Value := Value))).
Implicit Types (st : session_state (cell := cell) (Value := Value) (datetime := datetime)).


End ProcessQuestionScenario.

Lemma process_question_refuses_witness :
  stub_process_question
    (stub_libraries (JDict [(lit "query", JStr (lit "DELETE FROM students"))]))
    (Ok (lit "{}")) (lit "remove the students")
  = (stub_state (Ok (lit "{}")),
     Ok {| main.response := lit "I apologize, but I couldn't generate a safe query for your question. Could you please rephrase it?";
           main.error := true |}).
Proof.
  unfold stub_process_question.
  apply (process_question_refuses (U := ascii_only)) with
    (sql_result := {| query := lit "DELETE FROM students";
                      explanation := lit "Generated SQL query";
                      confidence := f0_8 |}); reflexivity.
Defined.

Lemma process_question_success_witness :
  (stub_process_question
     (stub_libraries (JDict [(lit "query", JStr (lit "SELECT 1"))]))
     (Ok (lit "{}")) (lit "one")).2
  = Ok {| main.response := lit "Nothing was found."; main.error := false |}.
Proof.
  unfold stub_process_question.
  refine (proj1 (process_question_success (U := ascii_only) _ _ _ _ _ _ _ _ _ _
            {| query := lit "SELECT 1"; explanation := lit "Generated SQL query";
               confidence := f0_8 |}
            (response_generator.Frame
               {| response_generator.columns := [lit "n"];
                  response_generator.rows := [] |})
            (lit "Nothing was found.") (lit "rows") [] _ _ _ _ _ _)); reflexivity.
Defined.

Lemma process_question_error_keeps_memory_witness :
  log_of (main.memory
            (stub_process_question
               (stub_libraries (JDict [(lit "query", JStr (lit "DELETE FROM students"))]))
               (Ok (lit "{}")) (lit "remove the students")).1) (lit "s1")
  = log_of (main.memory (stub_state (Ok (lit "{}")))) (lit "s1").
Proof.
  unfold stub_process_question.
  apply (process_question_error_keeps_memory (U := ascii_only)) with
    (h := [])
    (r := {| main.response := lit "I apologize, but I couldn't generate a safe query for your question. Could you please rephrase it?";
             main.error := true |}); reflexivity.
Defined.


(** ** The schema analyzer *)

Section SchemaAnalyzerProofs.
Import schema_analyzer.

Lemma fold_left_append {A} (f : A -> str) (l : list A) (init : str) :
  fold_left (fun text x => text ++ f x) l init = init ++ concat (map f l).
Proof.
  revert init. induction l as [|x l IH]; intros init; cbn [fold_left map concat].
  - by rewrite app_nil_r.
  - by rewrite IH, <- app_assoc.
Qed.

Lemma fold_left_pointwise {A B} (f g : B -> A -> B) (l : list A) (init : B) :
  (forall b x, f b x = g b x) -> fold_left f l init = fold_left g l init.
Proof.
  intros Hfg. revert init. induction l as [|x l IH]; intros init; [done|].
  cbn [fold_left]. by rewrite Hfg, IH.
Qed.

Lemma unique_aux_elem_of (seen values : list str) (v : str) :
  v ∈ unique_aux seen values <-> v ∈ values /\ v ∉ seen.
Proof.
  revert seen. induction values as [|w values IH]; intros seen; simpl.
  - split; [by intros ?%elem_of_nil | by intros [?%elem_of_nil _]].
  - destruct (bool_decide_reflect (w ∈ seen)) as [Hw|Hw].
    + rewrite IH, elem_of_cons. split; [tauto|].
      intros [[->|?] ?]; [done|tauto].
    + rewrite !elem_of_cons, IH, elem_of_cons. split.
      * intros [->|[? ?]]; tauto.
      * intros [[->|?] ?]; [tauto|].
        destruct (decide (v = w)); tauto.
Qed.

Lemma unique_aux_NoDup (seen values : list str) : NoDup (unique_aux seen values).
Proof.
  revert seen. induction values as [|w values IH]; intros seen; simpl.
  - constructor.
  - destruct (bool_decide_reflect (w ∈ seen)); [apply IH|].
    apply NoDup_cons. split; [|apply IH].
    rewrite unique_aux_elem_of, elem_of_cons. tauto.
Qed.

Lemma unique_elem_of (values : list str) (v : str) : v ∈ unique values <-> v ∈ values.
Proof.
  unfold unique. rewrite unique_aux_elem_of. split; [tauto|].
  intros Hv. split; [done|]. by intros ?%elem_of_nil.
Qed.

Lemma get_schema_description_blocks (self : SchemaAnalyzer) :
  get_schema_description self
  = (lit "School Database Schema Description:" ++ nl ++ nl)
    ++ concat (map (table_block self) (unique (map TABLE_NAME (schema_info self)))).
Proof.
  unfold get_schema_description. cbv zeta.
  rewrite <- (fold_left_append (table_block self)).
  apply fold_left_pointwise. intros description table. unfold table_block.
  rewrite fold_left_append.
  destruct (foreign_keys_of self table) as [|fk fks] eqn:Hfk.
  - by rewrite <- !app_assoc.
  - rewrite fold_left_append. by rewrite <- !app_assoc.
Qed.

Lemma substring_concat (piece : str) (pieces : list str) :
  piece ∈ pieces -> substring piece (concat pieces).
Proof.
  induction pieces as [|p pieces IH]; [by intros ?%elem_of_nil|].
  intros [->|Hin]%elem_of_cons; cbn [concat].
  - by exists [], (concat pieces).
  - destruct (IH Hin) as (a & b & ->). exists (p ++ a), b. by rewrite <- app_assoc.
Qed.

Lemma substring_refl (u : str) : substring u u.
Proof. exists [], []. by rewrite app_nil_r. Qed.

Lemma substring_app_l (u v w : str) : substring u v -> substring u (v ++ w).
Proof. intros (a & b & ->). exists a, (b ++ w). by rewrite <- !app_assoc. Qed.

Lemma substring_app_r (u v w : str) : substring u w -> substring u (v ++ w).
Proof. intros (a & b & ->). exists (v ++ a), b. by rewrite <- !app_assoc. Qed.

Lemma table_block_in_description (self : SchemaAnalyzer) (table : str) :
  table ∈ map TABLE_NAME (schema_info self) ->
  substring (table_block self table) (get_schema_description self).
Proof.
  intros Hin. rewrite get_schema_description_blocks.
  apply substring_app_r, substring_concat, list_elem_of_In, in_map.
  by apply list_elem_of_In, unique_elem_of.
Qed.

(** X23. The description begins with its heading and leaves nothing of the
    catalogue out: for every row of the column catalogue it holds the
    heading line of the row's table and the line of the column, and for
    every foreign key of a table of the catalogue the line of the
    reference. *)
Theorem get_schema_description_complete (self : SchemaAnalyzer) :
  (lit "School Database Schema Description:" ++ nl ++ nl)
    `prefix_of` get_schema_description self
  /\ (forall col, col ∈ schema_info self ->
        substring (lit "Table: " ++ TABLE_NAME col ++ nl) (get_schema_description self)
        /\ substring (column_line col) (get_schema_description self))
  /\ (forall fk, fk ∈ foreign_keys self ->
        FK_TABLE_NAME fk ∈ map TABLE_NAME (schema_info self) ->
        substring (lit "Relationships:" ++ nl ++ concat
                     (map relationship_line (foreign_keys_of self (FK_TABLE_NAME fk))))
          (get_schema_description self)
        /\ substring (relationship_line fk) (get_schema_description self)).
Proof.
  split; [rewrite get_schema_description_blocks; by eexists|]. split.
  - intros col Hcol.
    assert (TABLE_NAME col ∈ map TABLE_NAME (schema_info self)) as Hin
      by (by apply list_elem_of_In, in_map, list_elem_of_In).
    pose proof (table_block_in_description self _ Hin) as Hblock. split.
    + eapply substring_trans; [|exact Hblock]. unfold table_block.
      apply substring_app_l, substring_refl.
    + eapply substring_trans; [|exact Hblock]. unfold table_block.
      apply substring_app_r, substring_app_r, substring_app_l, substring_concat.
      apply list_elem_of_In, in_map, list_elem_of_In.
      unfold columns_of. by apply list_elem_of_filter.
  - intros fk Hfk Hin.
    pose proof (table_block_in_description self _ Hin) as Hblock.
    assert (fk ∈ foreign_keys_of self (FK_TABLE_NAME fk)) as Hmem
      by (unfold foreign_keys_of; by apply list_elem_of_filter).
    assert (substring (lit "Relationships:" ++ nl ++ concat
                     (map relationship_line (foreign_keys_of self (FK_TABLE_NAME fk))))
              (get_schema_description self)) as Hrel.
    { eapply substring_trans; [|exact Hblock]. unfold table_block.
      apply substring_app_r, substring_app_r, substring_app_r.
      destruct (foreign_keys_of self (FK_TABLE_NAME fk)) as [|fk' fks] eqn:Hfks;
        [by apply elem_of_nil in Hmem|].
      apply substring_app_l. rewrite <- app_assoc. apply substring_refl. }
    split; [done|].
    eapply substring_trans; [|exact Hrel].
    apply substring_app_r, substring_app_r, substring_concat.
    by apply list_elem_of_In, in_map, list_elem_of_In.
Qed.

Lemma group_by_name {A} (name : A -> str) (rows : list A) (tables : list str) :
  NoDup tables ->
  concat (map (fun table => filter (fun r => name r = table) rows) tables)
  ≡ₚ filter (fun r => name r ∈ tables) rows.
Proof.
  induction 1 as [|table tables Hnot Hnodup IH]; cbn [map concat].
  - induction rows as [|r rows IHr]; [done|].
    rewrite filter_cons_False; [done|]. by intros ?%elem_of_nil.
  - rewrite IH. clear IH. induction rows as [|r rows IHr]; [done|].
    destruct (decide (name r = table)) as [Heq|Hne].
    + rewrite (filter_cons_True (fun r => name r = table)) by done.
      rewrite (filter_cons_False (fun r => name r ∈ tables)) by (by rewrite Heq).
      rewrite (filter_cons_True (fun r => name r ∈ table :: tables))
        by (rewrite Heq; by left).
      cbn. by rewrite IHr.
    + rewrite (filter_cons_False (fun r => name r = table)) by done.
      destruct (decide (name r ∈ tables)) as [Hin|Hnin].
      * rewrite (filter_cons_True (fun r => name r ∈ tables)) by done.
        rewrite (filter_cons_True (fun r => name r ∈ table :: tables))
          by (by right).
        rewrite <- Permutation_middle. by rewrite IHr.
      * rewrite (filter_cons_False (fun r => name r ∈ tables)) by done.
        rewrite (filter_cons_False (fun r => name r ∈ table :: tables)); [done|].
        by intros [?|?]%elem_of_cons.
Qed.

Lemma filter_all {A} (P : A -> Prop) `{forall x, Decision (P x)} (l : list A) :
  Forall P l -> filter P l = l.
Proof.
  induction 1 as [|x l Hx _ IH]; [done|]. by rewrite filter_cons_True, IH.
Qed.

(** X24. [get_table_info_for_llm] groups the catalogue by table without
    losing or repeating a column: its keys are the tables in the order of
    their first appearance, each once, and the column lists of all the
    tables together are the rows of the catalogue, rearranged. *)
Theorem get_table_info_for_llm_groups (self : SchemaAnalyzer) :
  map fst (get_table_info_for_llm self) = unique (map TABLE_NAME (schema_info self))
  /\ NoDup (map fst (get_table_info_for_llm self))
  /\ (forall table, table ∈ map fst (get_table_info_for_llm self)
                    <-> table ∈ map TABLE_NAME (schema_info self))
  /\ concat (map (fun item => columns item.2) (get_table_info_for_llm self))
     ≡ₚ map column_info_of (schema_info self).
Proof.
  assert (map fst (get_table_info_for_llm self)
          = unique (map TABLE_NAME (schema_info self))) as Hkeys.
  { unfold get_table_info_for_llm. rewrite map_map. cbn. apply map_id. }
  split; [done|]. rewrite Hkeys. split; [apply unique_aux_NoDup|].
  split; [intros table; apply unique_elem_of|].
  unfold get_table_info_for_llm. rewrite map_map. cbn [snd columns].
  change (fun col => {| name := COLUMN_NAME col; type := DATA_TYPE col;
                        nullable := bool_decide (IS_NULLABLE col = lit "YES");
                        key := COLUMN_KEY col; default := COLUMN_DEFAULT col |})
    with column_info_of.
  rewrite <- (map_map (columns_of self) (map column_info_of)), <- concat_map.
  apply Permutation_map. unfold columns_of.
  rewrite (group_by_name TABLE_NAME) by apply unique_aux_NoDup.
  rewrite filter_all; [done|].
  apply Forall_forall. intros col Hcol. apply unique_elem_of.
  by apply list_elem_of_In, in_map, list_elem_of_In.
Qed.

(** X25. A foreign key of a table that the column catalogue does not list has
    no effect on the description; in particular the description of an
    empty catalogue is the heading alone. *)
Theorem get_schema_description_unlisted (cols : list column_row)
    (fks : list foreign_key_row) :
  get_schema_description {| schema_info := cols; foreign_keys := fks |}
  = get_schema_description
      {| schema_info := cols;
         foreign_keys :=
           filter (fun fk => FK_TABLE_NAME fk ∈ map TABLE_NAME cols) fks |}
  /\ get_schema_description {| schema_info := []; foreign_keys := fks |}
     = lit "School Database Schema Description:" ++ nl ++ nl.
Proof.
  split; [|reflexivity].
  rewrite !get_schema_description_blocks. cbn [schema_info]. f_equal. f_equal.
  apply map_ext_in. intros table Hin. apply list_elem_of_In in Hin.
  apply (proj1 (unique_elem_of _ _)) in Hin.
  unfold table_block, columns_of, foreign_keys_of. cbn [schema_info foreign_keys].
  assert (filter (fun fk => FK_TABLE_NAME fk = table)
            (filter (fun fk => FK_TABLE_NAME fk ∈ map TABLE_NAME cols) fks)
          = filter (fun fk => FK_TABLE_NAME fk = table) fks) as ->; [|done].
  rewrite list_filter_filter. apply list_filter_iff. intros fk. split; [tauto|].
  intros Heq. split; [done|]. by rewrite Heq.
Qed.
End SchemaAnalyzerProofs.

(** ** The query sanitizer *)

Lemma replace_aux_elem_of (old : str) (skip : nat) (s : str) (x : char) :
  x ∈ auth.replace_aux old [] skip s -> x ∈ s.
Proof.
  revert skip. induction s as [|c s IH]; intros skip; [done|].
  cbn [auth.replace_aux]. destruct skip as [|k].
  - destruct (startswith (c :: s) old).
    + intros Hx%IH. by right.
    + intros [->|Hx%IH]%elem_of_cons; [by left | by right].
  - intros Hx%IH. by right.
Qed.

Lemma replace_char_removes (c : char) (s : str) : c ∉ auth.replace [c] [] s.
Proof.
  unfold auth.replace. induction s as [|d s IH]; [by intros ?%elem_of_nil|].
  cbn [auth.replace_aux startswith length]. rewrite andb_true_r.
  destruct (N.eqb_spec c d) as [->|Hne]; [done|].
  intros [->|?]%elem_of_cons; done.
Qed.

Lemma lstrip_elem_of {U : UnicodeDB} (s : str) (x : char) : x ∈ lstrip s -> x ∈ s.
Proof.
  induction s as [|c s IH]; [done|]. simpl.
  destruct (py_isspace c); [|done]. intros Hx%IH. by right.
Qed.

Lemma strip_elem_of {U : UnicodeDB} (s : str) (x : char) : x ∈ strip s -> x ∈ s.
Proof.
  unfold strip, rstrip. intros Hx%list_elem_of_In%in_rev%list_elem_of_In.
  apply lstrip_elem_of in Hx. apply list_elem_of_In, in_rev, list_elem_of_In in Hx.
  by apply lstrip_elem_of.
Qed.

(** X26. [sanitize_query] returns a text with no semicolon, made of code
    points of the query; yet the patterns are removed one after the other
    in a single pass each, so the result may still hold one of them: there
    is a query whose sanitized text is [--]. *)
Theorem sanitize_query_semicolon {U : UnicodeDB} :
  (forall query : str,
     (59 ∉ auth.sanitize_query query)
     /\ (forall x, x ∈ auth.sanitize_query query -> x ∈ query))
  /\ exists query : str, auth.sanitize_query query = lit "--".
Proof.
  split.
  - intros query. unfold auth.sanitize_query. cbn [fold_left auth.dangerous_patterns].
    split.
    + intros Hx%strip_elem_of. unfold auth.replace in Hx.
      do 5 apply replace_aux_elem_of in Hx.
      by apply (replace_char_removes 59 query).
    + intros x Hx%strip_elem_of. unfold auth.replace in Hx.
      by do 6 apply replace_aux_elem_of in Hx.
  - exists (lit "-/*-"). vm_compute. reflexivity.
Qed.

(** * The handlers' own failures *)

(** The properties of this part are about the functions of [exact]: what
    escapes a function when [str(e)] in its handler, or the rendering of
    the results before its [try], raises. *)

(** ** The query generator *)

Section ExactGenerateSql.
Import sql_generator.
Context {U : UnicodeDB} {L : Libraries}.
Context (str_raises : exn -> option exn).

(** Where [str(e)] returns for every exception, the function is
    [sql_generator.generate_sql]. *)
Lemma exact_generate_sql_str_returns (self : SQLGenerator) (question : str) :
  (forall e, str_raises e = None) ->
  exact.generate_sql str_raises self question = generate_sql self question.
Proof.
  intros Hstr. unfold exact.generate_sql, generate_sql.
  destruct (get_schema_description self) as [sd|]; [cbn|done].
  destruct (get_table_info_json self) as [ti|]; [cbn|done].
  destruct (chain_run self sd ti question) as [result|e]; cbn;
    [by destruct (parse_response result)|].
  destruct (exn_cls e); [|done]. unfold exact.str_exn. by rewrite Hstr.
Qed.

Lemma exact_generate_sql_schema_raises (self : SQLGenerator) (question : str)
    (e : exn) :
  get_schema_description self = Raise e ->
  exact.generate_sql str_raises self question = Raise e.
Proof. intros He. unfold exact.generate_sql. by rewrite He. Qed.

Lemma exact_generate_sql_run_returns (self : SQLGenerator)
    (question schema_description table_info result : str) :
  get_schema_description self = Ok schema_description ->
  get_table_info_json self = Ok table_info ->
  chain_run self schema_description table_info question = Ok result ->
  exact.generate_sql str_raises self question =
    match parse_response result with
    | Ok q => Ok q
    | Raise _ => Ok (create_fallback_query question [])
    end.
Proof.
  intros Hschema Hinfo Hrun. unfold exact.generate_sql. rewrite Hschema, Hinfo. cbn.
  rewrite Hrun. cbn. by destruct (parse_response result).
Qed.

Lemma exact_generate_sql_run_raises (self : SQLGenerator)
    (question schema_description table_info : str) (e : exn) :
  get_schema_description self = Ok schema_description ->
  get_table_info_json self = Ok table_info ->
  chain_run self schema_description table_info question = Raise e ->
  exact.generate_sql str_raises self question =
    match exn_cls e with
    | cls_BaseException_only => Raise e
    | cls_Exception =>
        match str_raises e with
        | Some raised => Raise raised
        | None => Ok (create_fallback_query question (exn_str e))
        end
    end.
Proof.
  intros Hschema Hinfo Hrun. unfold exact.generate_sql. rewrite Hschema, Hinfo. cbn.
  rewrite Hrun. cbn. destruct (exn_cls e); [|done].
  unfold exact.str_exn. by destruct (str_raises e).
Qed.

(** C3. The failures of the model path that the handlers of
    [generate_sql] catch end as the query of the fallback path: with the
    schema description and the table information at hand, an output that
    cannot be cleaned or parsed, a parsed value that is not an object, a
    field that cannot be coerced, and an invocation error that is an
    [Exception] whose [str] returns; an output that parses ends as the
    parsed query.  The other failures leave the function: an exception of
    the schema analyzer, which is called before the [try], an invocation
    error that is not an [Exception], and the exception that [str(e)]
    raises in the handler. *)
Theorem generate_sql_fallback_paths (self : SQLGenerator) (question : str) :
  (forall e, get_schema_description self = Raise e ->
     exact.generate_sql str_raises self question = Raise e)
  /\ (forall schema_description e,
        get_schema_description self = Ok schema_description ->
        get_table_info_json self = Raise e ->
        exact.generate_sql str_raises self question = Raise e)
  /\ (forall schema_description table_info,
        get_schema_description self = Ok schema_description ->
        get_table_info_json self = Ok table_info ->
        (forall result,
           chain_run self schema_description table_info question = Ok result ->
           exists q, exact.generate_sql str_raises self question = Ok q
             /\ (forall e, parse_response result = Raise e ->
                   q = create_fallback_query question [])
             /\ (forall e, clean_response result = Raise e ->
                   q = create_fallback_query question [])
             /\ (forall cleaned e, clean_response result = Ok cleaned ->
                   json_loads cleaned = Raise e ->
                   q = create_fallback_query question [])
             /\ (forall cleaned parsed, clean_response result = Ok cleaned ->
                   json_loads cleaned = Ok parsed ->
                   (forall items, parsed <> JDict items) ->
                   q = create_fallback_query question [])
             /\ (forall cleaned items e, clean_response result = Ok cleaned ->
                   json_loads cleaned = Ok (JDict items) ->
                   py_float (dict_get items (lit "confidence") (JFloat f0_8))
                   = Raise e ->
                   q = create_fallback_query question [])
             /\ (forall q', parse_response result = Ok q' -> q = q'))
        /\ (forall e,
              chain_run self schema_description table_info question = Raise e ->
              exn_cls e = cls_Exception -> str_raises e = None ->
              exact.generate_sql str_raises self question
              = Ok (create_fallback_query question (exn_str e)))
        /\ (forall e raised,
              chain_run self schema_description table_info question = Raise e ->
              exn_cls e = cls_Exception -> str_raises e = Some raised ->
              exact.generate_sql str_raises self question = Raise raised)
        /\ (forall e,
              chain_run self schema_description table_info question = Raise e ->
              exn_cls e = cls_BaseException_only ->
              exact.generate_sql str_raises self question = Raise e)).
Proof.
  split; [by apply exact_generate_sql_schema_raises|]. split.
  { intros sd e Hschema Hinfo. unfold exact.generate_sql. by rewrite Hschema, Hinfo. }
  intros schema_description table_info Hschema Hinfo. split; [|repeat split].
  - intros result Hrun.
    rewrite (exact_generate_sql_run_returns self question _ _ result Hschema Hinfo Hrun).
    destruct (parse_response result) as [q'|e'] eqn:Hparse.
    + exists q'. split; [done|]. split; [done|]. split.
      { intros e He. unfold parse_response in Hparse. by rewrite He in Hparse. }
      split.
      { intros cleaned e Hc Hl.
        by rewrite (parse_response_loads_raises _ _ Hc e Hl) in Hparse. }
      split.
      { intros cleaned parsed Hc Hl Hnd.
        by rewrite (parse_response_not_dict _ _ Hc parsed Hl Hnd) in Hparse. }
      split.
      { intros cleaned items e Hc Hl Hf.
        rewrite (parse_response_dict _ _ Hc items Hl), Hf in Hparse. done. }
      by intros ? [= <-].
    + exists (create_fallback_query question []). repeat split; done.
  - intros e Hrun Hcls Hstr.
    rewrite (exact_generate_sql_run_raises self question _ _ e Hschema Hinfo Hrun).
    by rewrite Hcls, Hstr.
  - intros e raised Hrun Hcls Hstr.
    rewrite (exact_generate_sql_run_raises self question _ _ e Hschema Hinfo Hrun).
    by rewrite Hcls, Hstr.
  - intros e Hrun Hcls.
    rewrite (exact_generate_sql_run_raises self question _ _ e Hschema Hinfo Hrun).
    by rewrite Hcls.
Qed.

(** X6. [generate_sql] raises in exactly four cases: the schema analyzer
    raises while describing the schema, or while listing the tables; the
    model chain raises an exception that is not an [Exception]
    ([KeyboardInterrupt], [SystemExit]); or the chain raises an
    [Exception] and [str] of it raises in the handler.  In the first three
    it raises that exception, in the fourth the one that [str] raised. *)
Theorem generate_sql_raises_exactly (self : SQLGenerator) (question : str)
    (e : exn) :
  exact.generate_sql str_raises self question = Raise e <->
    get_schema_description self = Raise e
    \/ (exists schema_description,
          get_schema_description self = Ok schema_description
          /\ get_table_info_json self = Raise e)
    \/ (exists schema_description table_info,
          get_schema_description self = Ok schema_description
          /\ get_table_info_json self = Ok table_info
          /\ chain_run self schema_description table_info question = Raise e
          /\ exn_cls e = cls_BaseException_only)
    \/ (exists schema_description table_info caught,
          get_schema_description self = Ok schema_description
          /\ get_table_info_json self = Ok table_info
          /\ chain_run self schema_description table_info question = Raise caught
          /\ exn_cls caught = cls_Exception
          /\ str_raises caught = Some e).
Proof.
  destruct (get_schema_description self) as [sd|e1] eqn:Hschema.
  2:{ rewrite (exact_generate_sql_schema_raises self question e1 Hschema). split.
      - intros [= ->]. by left.
      - intros [[= ->] | [(? & [=] & _) | [(? & ? & [=] & _) | (? & ? & ? & [=] & _)]]].
        done. }
  destruct (get_table_info_json self) as [ti|e2] eqn:Hinfo.
  2:{ unfold exact.generate_sql. rewrite Hschema, Hinfo. cbn. split.
      - intros [= ->]. right. left. by eauto.
      - intros [[=] | [(? & _ & [= ->]) | [(? & ? & _ & [=] & _) | (? & ? & ? & _ & [=] & _)]]].
        done. }
  destruct (chain_run self sd ti question) as [result|e3] eqn:Hrun.
  - rewrite (exact_generate_sql_run_returns self question sd ti result Hschema Hinfo Hrun).
    split.
    + by destruct (parse_response result).
    + intros [[=] | [(? & _ & [=]) | [(? & ? & [= <-] & [= <-] & Hr & _)
                                     | (? & ? & ? & [= <-] & [= <-] & Hr & _)]]];
        congruence.
  - rewrite (exact_generate_sql_run_raises self question sd ti e3 Hschema Hinfo Hrun).
    destruct (exn_cls e3) eqn:Hcls.
    + destruct (str_raises e3) as [raised|] eqn:Hstr.
      * split.
        -- intros [= ->]. right. right. right. exists sd, ti, e3. auto.
        -- intros [[=] | [(? & _ & [=]) | [(? & ? & [= <-] & [= <-] & Hr & Hc)
                                          | (? & ? & ? & [= <-] & [= <-] & Hr & Hc & Hs)]]];
             congruence.
      * split; [done|].
        intros [[=] | [(? & _ & [=]) | [(? & ? & [= <-] & [= <-] & Hr & Hc)
                                       | (? & ? & ? & [= <-] & [= <-] & Hr & Hc & Hs)]]];
          congruence.
    + split.
      * intros [= ->]. right. right. left. exists sd, ti. auto.
      * intros [[=] | [(? & _ & [=]) | [(? & ? & [= <-] & [= <-] & Hr & Hc)
                                       | (? & ? & ? & [= <-] & [= <-] & Hr & Hc & Hs)]]];
          congruence.
Qed.
End ExactGenerateSql.

Lemma generate_sql_fallback_paths_witness :
  exact.generate_sql (U := ascii_only) (L := stub_libraries sql_generator.JNull)
    (fun _ => None)
    (stub_generator (Raise (Exn cls_Exception (lit "quota exceeded"))))
    (lit "count the students")
  = Ok {| sql_generator.query := lit "SELECT COUNT(*) as total_students FROM students";
          sql_generator.explanation := lit "Counting total number of students";
          sql_generator.confidence := sql_generator.f0_7 |}.
Proof.
  destruct (generate_sql_fallback_paths (U := ascii_only)
              (L := stub_libraries sql_generator.JNull) (fun _ => None)
              (stub_generator (Raise (Exn cls_Exception (lit "quota exceeded"))))
              (lit "count the students")) as (_ & _ & Hpaths).
  destruct (Hpaths (lit "School Database Schema Description:") (lit "{}")
              eq_refl eq_refl) as (_ & Hcaught & _).
  rewrite (Hcaught (Exn cls_Exception (lit "quota exceeded")) eq_refl eq_refl eq_refl).
  vm_compute. reflexivity.
Defined.

(** C3, as stated, fails.  The schema description is computed before the
    [try]: a schema analyzer that raises an [Exception] makes
    [generate_sql] raise it, whatever the question.  And [str(e)] is
    evaluated in the handler, outside of any [try]: when the model
    invocation fails with an [Exception] whose [str] raises, that second
    exception leaves [generate_sql]. *)
Lemma generate_sql_raises_outward :
  (exists (self : sql_generator.SQLGenerator) (e : exn),
     exn_cls e = cls_Exception
     /\ sql_generator.get_schema_description self = Raise e
     /\ forall (U : UnicodeDB) (L : sql_generator.Libraries) str_raises question,
          exact.generate_sql str_raises self question = Raise e)
  /\ (exists (self : sql_generator.SQLGenerator) (str_raises : exn -> option exn)
        (caught raised : exn),
        exn_cls caught = cls_Exception
        /\ exn_cls raised = cls_Exception
        /\ forall (U : UnicodeDB) (L : sql_generator.Libraries)
             schema_description table_info question,
             sql_generator.chain_run self schema_description table_info question
             = Raise caught
             /\ exact.generate_sql str_raises self question = Raise raised).
Proof.
  split.
  - exists {| sql_generator.get_schema_description :=
                Raise (Exn cls_Exception (lit "no such table: students"));
              sql_generator.get_table_info_json := Ok (lit "{}");
              sql_generator.chain_run := fun _ _ _ => Ok (lit "{}") |},
           (Exn cls_Exception (lit "no such table: students")).
    repeat split.
  - exists (stub_generator (Raise (Exn cls_Exception (lit "quota exceeded")))),
           (fun _ => Some TypeError),
           (Exn cls_Exception (lit "quota exceeded")), TypeError.
    repeat split.
Qed.

(** ** The response generator *)

Section ExactGenerateResponse.
Import response_generator.
Context {cell Value : Type}.
Context (to_string : DataFrame (cell := cell) -> outcome str).
Context (py_str : Value -> outcome str).
Context (prompt_format : str -> str -> str -> str -> str).
Context (llm_invoke : str -> outcome str).

(** Where the rendering returns, the formatted text is that of
    [response_generator.results_text]. *)
Lemma exact_results_text_returns (render : DataFrame (cell := cell) -> str)
    (results : query_results) :
  (forall df, to_string df = Ok (render df)) ->
  exact.results_text to_string py_str results = results_text render py_str results.
Proof.
  intros Hrender. destruct results as [df|v]; [|done].
  unfold exact.results_text, results_text.
  destruct (empty df); [done|]. destruct (10 <? len df)%nat; by rewrite Hrender.
Qed.

Lemma exact_generate_response_returns (render : DataFrame (cell := cell) -> str)
    (question sql_query : str) (results : query_results) (context : str) :
  (forall df, to_string df = Ok (render df)) ->
  exact.generate_response to_string py_str prompt_format llm_invoke
    question sql_query results context
  = generate_response render py_str prompt_format llm_invoke
      question sql_query results context.
Proof.
  intros Hrender. unfold exact.generate_response, generate_response.
  by rewrite (exact_results_text_returns render results Hrender).
Qed.

(** The formatting step raises exactly where the rendering that it calls
    raises. *)
Lemma exact_results_text_raises (results : query_results) (e : exn) :
  exact.results_text to_string py_str results = Raise e
  <-> (exists df, results = Frame df /\ empty df = false
         /\ (10 <? len df)%nat = true /\ to_string (head 10 df) = Raise e)
      \/ (exists df, results = Frame df /\ empty df = false
            /\ (10 <? len df)%nat = false /\ to_string df = Raise e)
      \/ (exists v, results = Other v /\ py_str v = Raise e).
Proof.
  destruct results as [df|v]; unfold exact.results_text.
  - destruct (empty df) eqn:Hempty.
    + split; [done|].
      intros [(? & [= <-] & ? & _) | [(? & [= <-] & ? & _) | (? & [=] & _)]];
        congruence.
    + destruct (10 <? len df)%nat eqn:Hlen.
      * destruct (to_string (head 10 df)) as [rendered|e1] eqn:Hr;
          cbn [mbind outcome_bind].
        -- split; [done|].
           intros [(? & [= <-] & _ & _ & ?) | [(? & [= <-] & _ & ? & _) | (? & [=] & _)]];
             congruence.
        -- split.
           ++ intros [= ->]. left. exists df. auto.
           ++ intros [(? & [= <-] & _ & _ & ?) | [(? & [= <-] & _ & ? & _) | (? & [=] & _)]];
                congruence.
      * split.
        -- intros He. right. left. exists df. auto.
        -- intros [(? & [= <-] & _ & ? & _) | [(? & [= <-] & _ & _ & ?) | (? & [=] & _)]];
             congruence.
  - split.
    + intros He. right. right. by eauto.
    + intros [(? & [=] & _) | [(? & [=] & _) | (? & [= <-] & ?)]]. done.
Qed.

(** X15. [generate_response] raises in exactly these cases: the formatting
    of the results, which precedes the [try], raises, that is
    [to_string] raises on a frame that is not empty (on its first 10 rows
    where it has more than 10) or [str(results)] raises on results that
    are not a DataFrame; or the model raises an exception that is not an
    [Exception].  It then raises that exception. *)
Theorem generate_response_raises_exactly (question sql_query : str)
    (results : query_results) (context : str) (e : exn) :
  exact.generate_response to_string py_str prompt_format llm_invoke
    question sql_query results context = Raise e
  <-> (exists df, results = Frame df /\ empty df = false
         /\ (10 <? len df)%nat = true /\ to_string (head 10 df) = Raise e)
      \/ (exists df, results = Frame df /\ empty df = false
            /\ (10 <? len df)%nat = false /\ to_string df = Raise e)
      \/ (exists v, results = Other v /\ py_str v = Raise e)
      \/ (exists text,
            exact.results_text to_string py_str results = Ok text
            /\ llm_invoke (prompt_format question sql_query text context) = Raise e
            /\ exn_cls e = cls_BaseException_only).
Proof.
  unfold exact.generate_response.
  destruct (exact.results_text to_string py_str results) as [text|e1] eqn:Htext; cbn.
  - assert (forall e', ~ ((exists df, results = Frame df /\ empty df = false
               /\ (10 <? len df)%nat = true /\ to_string (head 10 df) = Raise e')
            \/ (exists df, results = Frame df /\ empty df = false
                  /\ (10 <? len df)%nat = false /\ to_string df = Raise e')
            \/ (exists v, results = Other v /\ py_str v = Raise e'))) as Hno.
    { intros e' He'. apply exact_results_text_raises in He'. congruence. }
    destruct (llm_invoke (prompt_format question sql_query text context))
      as [content|e2] eqn:Hllm; cbn.
    + split; [done|].
      intros [H | [H | [H | (? & [= <-] & Hr & _)]]]; [| | |congruence];
        destruct (Hno e); tauto.
    + destruct (exn_cls e2) eqn:Hcls.
      * split; [done|].
        intros [H | [H | [H | (? & [= <-] & Hr & Hc)]]]; [| | |congruence];
          destruct (Hno e); tauto.
      * split.
        -- intros [= ->]. right. right. right. by eauto.
        -- intros [H | [H | [H | (? & [= <-] & Hr & Hc)]]]; [| | |congruence];
             destruct (Hno e); tauto.
  - split.
    + intros [= ->]. apply exact_results_text_raises in Htext. tauto.
    + intros [H | [H | [H | (? & [=] & _)]]].
      * assert (exact.results_text to_string py_str results = Raise e) as He
          by (apply exact_results_text_raises; tauto). congruence.
      * assert (exact.results_text to_string py_str results = Raise e) as He
          by (apply exact_results_text_raises; tauto). congruence.
      * assert (exact.results_text to_string py_str results = Raise e) as He
          by (apply exact_results_text_raises; tauto). congruence.
Qed.
End ExactGenerateResponse.

(** ** The question pipeline *)

Section ExactProcessQuestion.
Import main.
Context {U : UnicodeDB} {L : sql_generator.Libraries}.
Context (str_raises : exn -> option exn).
Context {cell Value datetime : Type}.
Context (to_string df_str : response_generator.DataFrame (cell := cell) -> outcome str).
Context (py_str : Value -> outcome str).
Context (prompt_format : str -> str -> str -> str -> str).
Context (llm_invoke : str -> outcome str).
Context (execute_query :
  str -> outcome (response_generator.query_results (cell := cell) (Value := Value))).

Local Abbreviation process_question_try :=
  (exact.process_question_try (datetime := datetime) str_raises to_string df_str
     py_str prompt_format llm_invoke execute_query).
Local Abbreviation process_question :=
  (exact.process_question (datetime := datetime) str_raises to_string df_str
     py_str prompt_format llm_invoke execute_query).
Implicit Types (st : session_state (cell := cell) (Value := Value) (datetime := datetime)).

(** The body of the [try] leaves the conversation history as it was
    when it raises. *)
Lemma exact_process_question_try_raise_history st (question now_iso : str)
    (now : datetime) (e : exn) :
  (process_question_try st question now_iso now).2 = Raise e ->
  conversation_history (process_question_try st question now_iso now).1
  = conversation_history st.
Proof.
  unfold exact.process_question_try.
  destruct (exact.generate_sql _ _ _) as [sql_result|e0]; [|done].
  destruct (negb _); [done|].
  destruct (execute_query _) as [results|e1]; [|done].
  destruct (exact.generate_response _ _ _ _ _ _ _ _) as [resp|e2]; [|done].
  cbn. destruct (memory_manager.add_exchange _ _ _ _ _ _ _ _).2; [|done].
  cbn. by destruct (conversation_history st) as [h|] eqn:Hh.
Qed.

(** Where [str(e)], [to_string] and [str(df)] return, the functions are
    those of [main]. *)
Lemma exact_process_question_try_returns
    (render render_str : response_generator.DataFrame (cell := cell) -> str)
    st (question now_iso : str) (now : datetime) :
  (forall e, str_raises e = None) ->
  (forall df, to_string df = Ok (render df)) ->
  (forall df, df_str df = Ok (render_str df)) ->
  process_question_try st question now_iso now
  = main.process_question_try render render_str py_str prompt_format llm_invoke
      execute_query st question now_iso now.
Proof.
  intros Hstr Hrender Hrender_str. unfold exact.process_question_try, main.process_question_try.
  rewrite (exact_generate_sql_str_returns str_raises _ question Hstr).
  destruct (sql_generator.generate_sql _ _) as [sql_result|e0]; [|done].
  destruct (negb _); [done|].
  destruct (execute_query _) as [results|e1]; [|done].
  rewrite (exact_generate_response_returns to_string py_str prompt_format llm_invoke
             render _ _ _ _ Hrender).
  destruct (response_generator.generate_response _ _ _ _ _ _ _ _) as [resp|e2]; [|done].
  assert (exact.str_results df_str py_str results
          = main.str_results render_str py_str results) as Hresults
    by (destruct results; [apply Hrender_str | done]).
  unfold memory_manager.add_exchange. cbn [memory_manager.isinstance_str negb].
  by rewrite Hresults.
Qed.

Lemma exact_process_question_returns
    (render render_str : response_generator.DataFrame (cell := cell) -> str)
    st (question now_iso : str) (now : datetime) :
  (forall e, str_raises e = None) ->
  (forall df, to_string df = Ok (render df)) ->
  (forall df, df_str df = Ok (render_str df)) ->
  process_question st question now_iso now
  = main.process_question render render_str py_str prompt_format llm_invoke
      execute_query st question now_iso now.
Proof.
  intros Hstr Hrender Hrender_str. unfold exact.process_question, main.process_question.
  rewrite (exact_process_question_try_returns render render_str _ _ _ _
             Hstr Hrender Hrender_str).
  destruct (main.process_question_try _ _ _ _ _ _ _ _ _ _) as [st' [r|e]]; [done|].
  destruct (exn_cls e); [|done]. unfold exact.str_exn. rewrite Hstr.
  by destruct (conversation_history st').
Qed.

(** X19. An exception leaves [process_question] in exactly two cases.  The
    body of the [try] raised an exception that is not an [Exception]: it
    is raised again.  Or the body raised an [Exception], the session state
    has a conversation history, and [str] of the exception raises while
    the entry of the failure is built: what [str] raised leaves the
    function.  Every other [Exception] of the body is caught. *)
Theorem process_question_raises_exactly st (question now_iso : str)
    (now : datetime) (e : exn) :
  (process_question st question now_iso now).2 = Raise e
  <-> exists caught,
        (process_question_try st question now_iso now).2 = Raise caught
        /\ ((exn_cls caught = cls_BaseException_only /\ e = caught)
            \/ (exn_cls caught = cls_Exception
                /\ conversation_history st <> None
                /\ str_raises caught = Some e)).
Proof.
  pose proof (exact_process_question_try_raise_history st question now_iso now)
    as Hhistory.
  unfold exact.process_question.
  destruct (process_question_try st question now_iso now) as [st' [r|e']]; cbn in *.
  { split; [done|]. by intros (? & [=] & _). }
  specialize (Hhistory e' eq_refl). rewrite <- Hhistory.
  destruct (exn_cls e') eqn:Hcls.
  - destruct (conversation_history st') as [h|] eqn:Hh.
    + unfold exact.str_exn. destruct (str_raises e') as [raised|] eqn:Hstr; cbn.
      * split.
        -- intros [= ->]. exists e'. split; [done|]. right. by rewrite Hstr.
        -- intros (? & [= <-] & [[? ?] | (_ & _ & ?)]); congruence.
      * split; [done|].
        intros (? & [= <-] & [[? ?] | (_ & _ & ?)]); congruence.
    + cbn. split; [done|].
      intros (? & [= <-] & [[? ?] | (_ & ? & _)]); congruence.
  - cbn. split.
    + intros [= <-]. exists e'. split; [done|]. by left.
    + intros (? & [= <-] & [[_ ->] | (? & _)]); congruence.
Qed.
End ExactProcessQuestion.

(** [str] of the model's error raises a [TypeError]: it leaves
    [generate_sql], is caught by [process_question], and [str] of it
    raises again while the entry of the failure is built. *)
Example process_question_str_raises :
  (exact.process_question (U := ascii_only) (L := stub_libraries sql_generator.JNull)
     (fun _ => Some TypeError)
     (fun _ => Ok (lit "rows")) (fun _ => Ok (lit "rows"))
     (fun v : Empty_set => match v with end)
     (fun question _ results _ => question ++ results)
     (fun _ => Ok (lit "Nothing was found.")) stub_execute_query
     (stub_state (Raise (Exn cls_Exception (lit "quota exceeded"))))
     (lit "hello") (lit "2024-01-01T00:00:00") ()).2
  = Raise TypeError.
Proof. reflexivity. Qed.
